(** * git-mcp: a shallow embedding of the tool layer

    The development follows the TypeScript sources:
    - [providers/git-provider.ts]  : the provider interface ([GitProvider]);
    - [git-tools/simple-git.ts]    : the provider factory ([SimpleGit.getGit]);
    - [git-tools/*-operations.ts]  : the six operation groups ([GitTools]);
    - [__tests__/utils/mock-git-provider.ts] : the test double ([Mock]);
    - [git-tools.ts]               : the module-level operations ([Legacy]);
    - [index.ts]                   : tool catalog and dispatcher ([Server]).

    Asynchronous functions are run to completion one after the other, so
    a [Promise] is modelled by a computation in a state-and-fault monad:
    the state is the external repository together with a log of the
    provider primitives that were invoked, a rejected promise is a
    thrown fault carrying its message. *)

From stdpp Require Import base strings pretty list gmap.

Set Warnings "-register-all".

Open Scope string_scope.
Open Scope list_scope.

(** ** JavaScript values *)

(** The [data?: any] payloads are JSON values; an object keeps the order
    in which its keys were written. Numbers that occur in this program
    are integral (counts, indexes), so they are in [Z]. *)
Inductive JSON : Type :=
| JNull
| JBool (b : bool)
| JNum (n : Z)
| JStr (s : string)
| JArr (items : list JSON)
| JObj (fields : list (string * JSON)).

Definition JStrs (l : list string) : JSON := JArr (map JStr l).

Definition JNullable (o : option string) : JSON :=
  match o with Some s => JStr s | None => JNull end.

(** [obj[key]] on an object literal; [None] is [undefined]. *)
Fixpoint assoc (key : string) (fields : list (string * JSON)) : option JSON :=
  match fields with
  | [] => None
  | (k, v) :: rest => if String.eqb k key then Some v else assoc key rest
  end.

Definition get (key : string) (o : JSON) : option JSON :=
  match o with JObj fields => assoc key fields | _ => None end.

(** Truthiness of the optional parameters: [undefined], [""], [false]
    and [0] are falsy. *)
Definition truthy_str (o : option string) : bool :=
  match o with Some s => negb (String.eqb s "") | None => false end.

Definition truthy_bool (o : option bool) : bool :=
  match o with Some b => b | None => false end.

Definition truthy_num (o : option Z) : bool :=
  match o with Some n => negb (Z.eqb n 0) | None => false end.

(** [a || d] on an optional string. *)
Definition or_else (o : option string) (d : string) : string :=
  if truthy_str o then default d o else d.

(** Template-literal rendering of a number: the decimal numeral. *)
Definition num_str (n : Z) : string := pretty n.
Definition len_str {A} (l : list A) : string := pretty (length l).

(** [Array.prototype.join]. *)
Fixpoint join (sep : string) (l : list string) : string :=
  match l with
  | [] => ""
  | [x] => x
  | x :: rest => x +:+ sep +:+ join sep rest
  end.

(** The line feed of a string literal. *)
Definition newline : string := String (Ascii.ascii_of_nat 10) "".


(** ** types.ts / git-provider.ts: the response envelope *)

Record GitOperationResponse := {
  success : bool;
  message : string;
  data : option JSON
}.

Definition ok_msg (m : string) : GitOperationResponse :=
  {| success := true; message := m; data := None |}.
Definition ok_data (m : string) (d : JSON) : GitOperationResponse :=
  {| success := true; message := m; data := Some d |}.
Definition failure (m : string) : GitOperationResponse :=
  {| success := false; message := m; data := None |}.

(** ** git-provider.ts: result types of the primitives *)

Record Renamed := { from : string; to : string }.

Record GitStatus := {
  modified : list string;
  created : list string;
  deleted : list string;
  renamed : list Renamed;
  conflicted : list string;
  not_added : list string;
  staged : list string;
  current : option string;
  tracking : option string;
  ahead : Z;
  behind : Z;
  isClean : bool
}.

Record GitBranchInfo := {
  bi_name : string;
  bi_commit : string;
  bi_label : string;
  bi_current : bool
}.

Record GitBranchSummary := {
  detached : bool;
  bs_current : string;
  bs_all : list string;
  bs_branches : gmap string GitBranchInfo
}.

Record GitCommit := {
  hash : string;
  date : string;
  c_message : string;
  author_name : string;
  author_email : string;
  body : string;
  refs : string
}.

Record GitLogResult := {
  log_all : list GitCommit;
  log_total : Z;
  log_latest : option GitCommit
}.

Record GitDiffFileResult := {
  file : string;
  changes : option Z;
  insertions : option Z;
  deletions : option Z;
  binary : bool
}.

Record GitDiffSummary := {
  files : list GitDiffFileResult;
  ds_insertions : Z;
  ds_deletions : Z;
  ds_changed : Z
}.

Record ChangeSummary := {
  sum_changes : Z;
  sum_insertions : Z;
  sum_deletions : Z
}.

Record GitCommitResult := {
  commit : string;
  cr_branch : string;
  author : option string;
  summary : ChangeSummary
}.

Record GitMergeResult := {
  merges : list string;
  conflicts : list string;
  result : string;
  mr_summary : ChangeSummary
}.

Record GitStashEntry := {
  se_hash : string;
  se_date : string;
  se_message : string;
  se_index : Z
}.

Record GitStashList := {
  sl_all : list GitStashEntry;
  sl_total : Z;
  sl_latest : option GitStashEntry
}.

Record RemoteRefs := { r_fetch : string; r_push : string }.
Record GitRemote := { r_name : string; r_refs : RemoteRefs }.

Record GitLogOptions := {
  lo_maxCount : option Z;
  lo_file : option string;
  lo_from : option string;
  lo_to : option string
}.

(** [GitCommitOptions] and [GitPullOptions] are open-keyed objects. *)
Definition GitCommitOptions := list (string * JSON).
Definition GitPullOptions := list (string * JSON).

(** Provider objects that an operation hands back untouched
    ([data: result], [data: stashList.all]) as they appear in [any]. *)
Definition ChangeSummary_json (s : ChangeSummary) : JSON :=
  JObj [("changes", JNum (sum_changes s));
        ("insertions", JNum (sum_insertions s));
        ("deletions", JNum (sum_deletions s))].

Definition GitMergeResult_json (r : GitMergeResult) : JSON :=
  JObj [("merges", JStrs (merges r));
        ("conflicts", JStrs (conflicts r));
        ("result", JStr (result r));
        ("summary", ChangeSummary_json (mr_summary r))].

Definition GitStashEntry_json (e : GitStashEntry) : JSON :=
  JObj [("hash", JStr (se_hash e));
        ("date", JStr (se_date e));
        ("message", JStr (se_message e));
        ("index", JNum (se_index e))].

(** ** Faults and the log of primitive calls *)

Inductive Result (A : Type) : Type :=
| Ok (a : A)
| Throw (error_message : string).
Arguments Ok {A} a.
Arguments Throw {A} error_message.

Definition fault_of {A} (r : Result A) : option string :=
  match r with Ok _ => None | Throw m => Some m end.

(** One constructor per method of [GitProvider], with its arguments. *)
Inductive Call : Type :=
| C_checkIsRepo
| C_status
| C_init
| C_clone (url targetPath : string)
| C_branch (args : option (list string))
| C_checkout (ref : string)
| C_checkoutBranch (branchName startPoint : string)
| C_merge (args : list string)
| C_diff (args : list string)
| C_diffSummary (args : list string)
| C_add (files : list string)
| C_reset (args : list string)
| C_raw (args : list string)
| C_commit (message : string) (files : option (list string)) (options : GitCommitOptions)
| C_log (options : GitLogOptions)
| C_show (args : list string)
| C_rebase (args : list string)
| C_stash (args : list string)
| C_stashList
| C_getRemotes (verbose : bool)
| C_addRemote (name url : string)
| C_fetch (remote branch : option string)
| C_pull (remote branch : option string) (options : GitPullOptions)
| C_push (remote branch : option string) (options : list string).

(** A logged invocation: which primitive, and the fault it raised if any. *)
Definition Event : Type := Call * option string.

Module Provider.
Section WithRepository.
(** [S] is the state of the external version-control toolchain. *)
Context {S : Type}.

Record World := { pstate : S; calls : list Event }.

Definition M (A : Type) : Type := World -> Result A * World.

Definition ret {A} (a : A) : M A := fun w => (Ok a, w).
Definition throw {A} (m : string) : M A := fun w => (Throw m, w).
Definition bind {A B} (m : M A) (k : A -> M B) : M B :=
  fun w => match m w with
           | (Ok a, w') => k a w'
           | (Throw e, w') => (Throw e, w')
           end.
Definition try_catch {A} (body : M A) (handler : string -> M A) : M A :=
  fun w => match body w with
           | (Ok a, w') => (Ok a, w')
           | (Throw e, w') => handler e w'
           end.

(** A primitive acts on the repository and may fault. *)
Definition Prim (A : Type) : Type := S -> Result A * S.

Definition invoke {A} (c : Call) (p : Prim A) : M A :=
  fun w => let '(r, s') := p (pstate w) in
           (r, {| pstate := s'; calls := calls w ++ [(c, fault_of r)] |}).

(** The interface [GitProvider]. The overloads of [branch] are two
    fields; those of [fetch] are one field with optional arguments. *)
Record GitProvider := {
  prim_checkIsRepo : Prim bool;
  prim_status : Prim GitStatus;
  prim_init : Prim unit;
  prim_clone : string -> string -> Prim unit;
  prim_branch : Prim GitBranchSummary;
  prim_branch_args : list string -> Prim unit;
  prim_checkout : string -> Prim unit;
  prim_checkoutBranch : string -> string -> Prim unit;
  prim_merge : list string -> Prim GitMergeResult;
  prim_diff : list string -> Prim string;
  prim_diffSummary : list string -> Prim GitDiffSummary;
  prim_add : list string -> Prim unit;
  prim_reset : list string -> Prim unit;
  prim_raw : list string -> Prim string;
  prim_commit : string -> option (list string) -> GitCommitOptions -> Prim GitCommitResult;
  prim_log : GitLogOptions -> Prim GitLogResult;
  prim_show : list string -> Prim string;
  prim_rebase : list string -> Prim unit;
  prim_stash : list string -> Prim unit;
  prim_stashList : Prim GitStashList;
  prim_getRemotes : bool -> Prim (list GitRemote);
  prim_addRemote : string -> string -> Prim unit;
  prim_fetch : option string -> option string -> Prim unit;
  prim_pull : option string -> option string -> GitPullOptions -> Prim unit;
  prim_push : option string -> option string -> list string -> Prim unit
}.

(** [GitProviderFactory]: [(args: {repoPath?, required?}) => Promise<GitProvider>]. *)
Record FactoryArgs := { fa_repoPath : option string; fa_required : option bool }.
Definition GitProviderFactory : Type := FactoryArgs -> M GitProvider.

End WithRepository.
Arguments World : clear implicits.
Arguments M : clear implicits.
Arguments Prim : clear implicits.
Arguments GitProvider : clear implicits.
Arguments GitProviderFactory : clear implicits.
End Provider.
Export Provider.

(** [await git.m(args)]: the primitive runs and the call is logged. *)
Module Git.
Section Methods.
Context {S : Type}.
Variable git : GitProvider S.
Definition checkIsRepo := invoke C_checkIsRepo (prim_checkIsRepo git).
Definition status := invoke C_status (prim_status git).
Definition init := invoke C_init (prim_init git).
Definition clone url targetPath :=
  invoke (C_clone url targetPath) (prim_clone git url targetPath).
Definition branch := invoke (C_branch None) (prim_branch git).
Definition branch_args args :=
  invoke (C_branch (Some args)) (prim_branch_args git args).
Definition checkout ref := invoke (C_checkout ref) (prim_checkout git ref).
Definition checkoutBranch branchName startPoint :=
  invoke (C_checkoutBranch branchName startPoint)
         (prim_checkoutBranch git branchName startPoint).
Definition merge args := invoke (C_merge args) (prim_merge git args).
Definition diff args := invoke (C_diff args) (prim_diff git args).
Definition diffSummary args :=
  invoke (C_diffSummary args) (prim_diffSummary git args).
Definition add files := invoke (C_add files) (prim_add git files).
Definition reset args := invoke (C_reset args) (prim_reset git args).
Definition raw args := invoke (C_raw args) (prim_raw git args).
Definition commit message files options :=
  invoke (C_commit message files options) (prim_commit git message files options).
Definition log options := invoke (C_log options) (prim_log git options).
Definition show args := invoke (C_show args) (prim_show git args).
Definition rebase args := invoke (C_rebase args) (prim_rebase git args).
Definition stash args := invoke (C_stash args) (prim_stash git args).
Definition stashList := invoke C_stashList (prim_stashList git).
Definition getRemotes verbose :=
  invoke (C_getRemotes verbose) (prim_getRemotes git verbose).
Definition addRemote name url :=
  invoke (C_addRemote name url) (prim_addRemote git name url).
Definition fetch remote branch :=
  invoke (C_fetch remote branch) (prim_fetch git remote branch).
Definition pull remote branch options :=
  invoke (C_pull remote branch options) (prim_pull git remote branch options).
Definition push remote branch options :=
  invoke (C_push remote branch options) (prim_push git remote branch options).
End Methods.
End Git.

Declare Scope js_scope.
Delimit Scope js_scope with js.
Notation "x <- m ;; k" := (bind m (fun x => k))
  (at level 100, m at next level, right associativity) : js_scope.
Notation "m ;;; k" := (bind m (fun _ => k))
  (at level 100, right associativity) : js_scope.
Open Scope js_scope.

(** ** git-tools/simple-git.ts: the provider factory *)

Module SimpleGit.
Section Factory.
Context {S : Type}.
(** [process.cwd()]. *)
Variable cwd : string.
(** [simpleGit(basePath)] of the simple-git package: binds a provider
    to a directory; it reads the file system and may throw, but
    invokes no primitive. *)
Variable simpleGit : string -> S -> Result (GitProvider S).

Definition bind_simpleGit (basePath : string) : M S (GitProvider S) :=
  fun w => (simpleGit basePath (pstate w), w).

Definition getGit : GitProviderFactory S := fun args =>
  let repoPath := fa_repoPath args in
  let required := default true (fa_required args) in
  let basePath := or_else repoPath cwd in
  git <- bind_simpleGit basePath ;;
  if required then
    isRepo <- Git.checkIsRepo git ;;
    if negb isRepo
    then throw ("Not a git repository: " +:+ basePath)
    else ret git
  else ret git.
End Factory.
End SimpleGit.

(** The [mode] parameter of [gitReset]: ['soft' | 'mixed' | 'hard']. *)
Inductive ResetMode := soft | mixed | hard.
Definition mode_str (m : ResetMode) : string :=
  match m with soft => "soft" | mixed => "mixed" | hard => "hard" end.

(** The value of a parameter once it is known to be truthy. *)
Definition str (o : option string) : string := default "" o.
(** [files && files.length > 0]. *)
Definition has_files (files : option (list string)) : bool :=
  match files with Some (_ :: _) => true | _ => false end.
Definition file_list (files : option (list string)) : list string := default [] files.

(** An invocation of one of the operations, with its argument object. *)
Inductive Operation : Type :=
| Op_gitStatus (repoPath : option string)
| Op_gitInit (repoPath : option string)
| Op_gitClone (url : string) (targetPath repoPath : option string)
| Op_gitBranchList (repoPath : option string)
| Op_gitBranchCreate (branchName : string) (repoPath : option string)
| Op_gitBranchDelete (branchName : string) (force : option bool) (repoPath : option string)
| Op_gitCheckout (ref : string) (createBranch : option bool) (repoPath : option string)
| Op_gitMerge (branch : string) (noFastForward : option bool) (repoPath : option string)
| Op_gitDiff (files : option (list string)) (cached : option bool)
    (fromCommit toCommit : option string) (useThreeDotRange : option bool)
    (repoPath : option string)
| Op_gitAdd (files : list string) (repoPath : option string)
| Op_gitReset (files : option (list string)) (mode : option ResetMode)
    (commit : option string) (repoPath : option string)
| Op_gitRestore (files : list string) (staged : option bool) (repoPath : option string)
| Op_gitCommit (message : string) (files : option (list string)) (amend : option bool)
    (repoPath : option string)
| Op_gitLog (maxCount : option Z) (file : option string) (repoPath : option string)
| Op_gitShow (ref repoPath : option string)
| Op_gitRebase (branch : string) (interactive : option bool) (repoPath : option string)
| Op_gitStash (message : option string) (includeUntracked : option bool)
    (repoPath : option string)
| Op_gitStashPop (index : option Z) (repoPath : option string)
| Op_gitStashList (repoPath : option string)
| Op_gitCherryPick (commit : string) (repoPath : option string)
| Op_gitRemoteList (repoPath : option string)
| Op_gitRemoteAdd (name url : string) (repoPath : option string)
| Op_gitFetch (remote branch repoPath : option string)
| Op_gitPull (remote branch : option string) (rebase : option bool) (repoPath : option string)
| Op_gitPush (remote branch : option string) (force setUpstream : option bool)
    (repoPath : option string).

(** The [repoPath] of the argument object. *)
Definition repoPath_of (op : Operation) : option string :=
  match op with
  | Op_gitStatus p | Op_gitInit p | Op_gitClone _ _ p | Op_gitBranchList p
  | Op_gitBranchCreate _ p | Op_gitBranchDelete _ _ p | Op_gitCheckout _ _ p | Op_gitMerge _ _ p
  | Op_gitDiff _ _ _ _ _ p | Op_gitAdd _ p | Op_gitReset _ _ _ p | Op_gitRestore _ _ p
  | Op_gitCommit _ _ _ p | Op_gitLog _ _ p | Op_gitShow _ p
  | Op_gitRebase _ _ p | Op_gitStash _ _ p | Op_gitStashPop _ p | Op_gitStashList p
  | Op_gitCherryPick _ p
  | Op_gitRemoteList p | Op_gitRemoteAdd _ _ p | Op_gitFetch _ _ p | Op_gitPull _ _ _ p
  | Op_gitPush _ _ _ _ p => p
  end.

(** The action named by the message of each operation's [catch] block. *)
Definition action (op : Operation) : string :=
  match op with
  | Op_gitStatus _ => "get status"
  | Op_gitInit _ => "initialize repository"
  | Op_gitClone _ _ _ => "clone repository"
  | Op_gitBranchList _ => "list branches"
  | Op_gitBranchCreate _ _ => "create branch"
  | Op_gitBranchDelete _ _ _ => "delete branch"
  | Op_gitCheckout _ _ _ => "checkout"
  | Op_gitMerge _ _ _ => "merge"
  | Op_gitDiff _ _ _ _ _ _ => "get diff"
  | Op_gitAdd _ _ => "stage files"
  | Op_gitReset _ _ _ _ => "reset"
  | Op_gitRestore _ _ _ => "restore files"
  | Op_gitCommit _ _ _ _ => "commit"
  | Op_gitLog _ _ _ => "get log"
  | Op_gitShow _ _ => "show commit"
  | Op_gitRebase _ _ _ => "rebase"
  | Op_gitStash _ _ _ => "stash"
  | Op_gitStashPop _ _ => "pop stash"
  | Op_gitStashList _ => "list stashes"
  | Op_gitCherryPick _ _ => "cherry-pick"
  | Op_gitRemoteList _ => "list remotes"
  | Op_gitRemoteAdd _ _ _ => "add remote"
  | Op_gitFetch _ _ _ => "fetch"
  | Op_gitPull _ _ _ _ => "pull"
  | Op_gitPush _ _ _ _ _ => "push"
  end.

Definition failed_to (op : Operation) : string := "Failed to " +:+ action op +:+ ": ".

(** Whether the operation asks its factory for an existing repository:
    all do, except [gitInit] and [gitClone] ([required: false]). *)
Definition requires_repository (op : Operation) : bool :=
  match op with
  | Op_gitInit _ | Op_gitClone _ _ _ => false
  | _ => true
  end.

(** ** git-tools/*.ts: the operation groups

    [configureXOperations(getGit)] closes over the factory; here the
    factory is the section variable [getGit]. An argument object
    [{ a: T; b?: U }] becomes the parameters [(a : T) (b : option U)]. *)

Module GitTools.
Section Configure.
Context {S : Type}.
Variable getGit : GitProviderFactory S.
(** [process.cwd()] and Node's [path.basename(path, suffix)]. *)
Variable cwd : string.
Variable path_basename : string -> string -> string.

(** [getGit({ repoPath })] and [getGit({ repoPath, required: false })]. *)
Definition repo (repoPath : option string) : FactoryArgs :=
  {| fa_repoPath := repoPath; fa_required := None |}.
Definition repo_not_required (repoPath : option string) : FactoryArgs :=
  {| fa_repoPath := repoPath; fa_required := Some false |}.

(** *** repository-management.ts *)

Definition StatusData (status : GitStatus) : JSON :=
  JObj [("modified", JStrs (modified status));
        ("added", JStrs (created status));
        ("deleted", JStrs (deleted status));
        ("renamed", JStrs (map (fun r => from r +:+ " -> " +:+ to r) (renamed status)));
        ("conflicted", JStrs (conflicted status));
        ("notAdded", JStrs (not_added status));
        ("staged", JStrs (staged status));
        ("current", JNullable (current status));
        ("tracking", JNullable (tracking status));
        ("ahead", JNum (ahead status));
        ("behind", JNum (behind status));
        ("isClean", JBool (isClean status))].

Definition gitStatus (repoPath : option string) : M S GitOperationResponse :=
  try_catch
    (git <- getGit (repo repoPath) ;;
     status <- Git.status git ;;
     let data := StatusData status in
     ret (ok_data (if isClean status then "Working tree clean"
                   else "Working tree has changes") data))
    (fun error => ret (failure ("Failed to get status: " +:+ error))).

Definition gitInit (repoPath : option string) : M S GitOperationResponse :=
  try_catch
    (git <- getGit (repo_not_required repoPath) ;;
     Git.init git ;;;
     ret (ok_msg ("Initialized empty Git repository in " +:+ or_else repoPath cwd)))
    (fun error => ret (failure ("Failed to initialize repository: " +:+ error))).

Definition gitClone (url : string) (targetPath repoPath : option string)
  : M S GitOperationResponse :=
  try_catch
    (git <- getGit (repo_not_required repoPath) ;;
     let target := if truthy_str targetPath then default "" targetPath
                   else path_basename url ".git" in
     Git.clone git url target ;;;
     ret (ok_msg ("Cloned repository from " +:+ url +:+ " to " +:+ target)))
    (fun error => ret (failure ("Failed to clone repository: " +:+ error))).

(** *** branch-operations.ts *)

Definition BranchData (branches : GitBranchSummary) : list JSON :=
  map (fun name =>
         JObj [("name", JStr name);
               ("current", JBool (String.eqb name (bs_current branches)));
               ("commit", JStr (or_else (bi_commit <$> bs_branches branches !! name) ""))])
      (bs_all branches).

Definition gitBranchList (repoPath : option string) : M S GitOperationResponse :=
  try_catch
    (git <- getGit (repo repoPath) ;;
     branches <- Git.branch git ;;
     let data := BranchData branches in
     ret (ok_data ("Found " +:+ len_str data +:+ " branches") (JArr data)))
    (fun error => ret (failure ("Failed to list branches: " +:+ error))).

Definition gitBranchCreate (branchName : string) (repoPath : option string)
  : M S GitOperationResponse :=
  try_catch
    (git <- getGit (repo repoPath) ;;
     Git.branch_args git [branchName] ;;;
     ret (ok_msg ("Created branch '" +:+ branchName +:+ "'")))
    (fun error => ret (failure ("Failed to create branch: " +:+ error))).

Definition gitBranchDelete (branchName : string) (force : option bool)
  (repoPath : option string) : M S GitOperationResponse :=
  try_catch
    (git <- getGit (repo repoPath) ;;
     let deleteFlag := if truthy_bool force then "-D" else "-d" in
     Git.branch_args git [deleteFlag; branchName] ;;;
     ret (ok_msg ("Deleted branch '" +:+ branchName +:+ "'")))
    (fun error => ret (failure ("Failed to delete branch: " +:+ error))).

Definition gitCheckout (ref : string) (createBranch : option bool)
  (repoPath : option string) : M S GitOperationResponse :=
  try_catch
    (git <- getGit (repo repoPath) ;;
     (if truthy_bool createBranch
      then Git.checkoutBranch git ref "HEAD"
      else Git.checkout git ref) ;;;
     ret (ok_msg (if truthy_bool createBranch
                  then "Created and switched to branch '" +:+ ref +:+ "'"
                  else "Switched to '" +:+ ref +:+ "'")))
    (fun error => ret (failure ("Failed to checkout: " +:+ error))).

Definition gitMerge (branch : string) (noFastForward : option bool)
  (repoPath : option string) : M S GitOperationResponse :=
  try_catch
    (git <- getGit (repo repoPath) ;;
     let options := if truthy_bool noFastForward then ["--no-ff"] else [] in
     result <- Git.merge git (options ++ [branch]) ;;
     ret (ok_data ("Merged branch '" +:+ branch +:+ "'") (GitMergeResult_json result)))
    (fun error => ret (failure ("Failed to merge: " +:+ error))).

(** *** file-operations.ts *)

(** The statements that build [diffArgs], one [push] after the other. *)
Definition build_diffArgs (files : option (list string)) (cached : option bool)
  (fromCommit toCommit : option string) (useThreeDotRange : option bool)
  : list string :=
  let diffArgs := [] in
  let diffArgs := if truthy_bool cached then diffArgs ++ ["--cached"] else diffArgs in
  let diffArgs :=
    if truthy_str fromCommit || truthy_str toCommit then
      if truthy_str fromCommit && truthy_str toCommit then
        let rangeOperator := if truthy_bool useThreeDotRange then "..." else ".." in
        diffArgs ++ [str fromCommit +:+ rangeOperator +:+ str toCommit]
      else if truthy_str fromCommit then diffArgs ++ [str fromCommit]
      else if truthy_str toCommit then diffArgs ++ [str toCommit]
      else diffArgs
    else diffArgs in
  let diffArgs :=
    if has_files files then diffArgs ++ "--" :: file_list files else diffArgs in
  diffArgs.

Definition not_separator (arg : string) : bool := negb (String.eqb arg "--").

Definition DiffData (diffSummary : GitDiffSummary) : JSON :=
  JObj [("files",
         JArr (map (fun f =>
                      JObj [("file", JStr (file f));
                            ("changes", JNum (default 0%Z (changes f)));
                            ("insertions", JNum (default 0%Z (insertions f)));
                            ("deletions", JNum (default 0%Z (deletions f)));
                            ("binary", JBool (binary f))])
                   (files diffSummary)));
        ("insertions", JNum (ds_insertions diffSummary));
        ("deletions", JNum (ds_deletions diffSummary));
        ("changed", JNum (ds_changed diffSummary))].

Definition diff_message (files : option (list string)) (cached : option bool)
  (fromCommit toCommit : option string) (useThreeDotRange : option bool) : string :=
  if truthy_str fromCommit && truthy_str toCommit then
    let rangeOperator := if truthy_bool useThreeDotRange then "..." else ".." in
    "Diff for " +:+ str fromCommit +:+ rangeOperator +:+ str toCommit
  else if truthy_str fromCommit then
    "Diff from " +:+ str fromCommit +:+ " to working tree"
  else if truthy_str toCommit then
    "Diff to " +:+ str toCommit
  else if truthy_bool cached then
    "Diff for staged changes"
  else
    "Diff for " +:+ (if has_files files then len_str (file_list files) else "all")
      +:+ " file(s)".

Definition gitDiff (files : option (list string)) (cached : option bool)
  (fromCommit toCommit : option string) (useThreeDotRange : option bool)
  (repoPath : option string) : M S GitOperationResponse :=
  try_catch
    (git <- getGit (repo repoPath) ;;
     let diffArgs := build_diffArgs files cached fromCommit toCommit useThreeDotRange in
     diff <- Git.diff git diffArgs ;;
     let summaryArgs := List.filter not_separator diffArgs in
     diffSummary <- Git.diffSummary git summaryArgs ;;
     let data := DiffData diffSummary in
     let message := diff_message files cached fromCommit toCommit useThreeDotRange in
     ret (ok_data message (JObj [("summary", data); ("diff", JStr diff)])))
    (fun error => ret (failure ("Failed to get diff: " +:+ error))).

Definition gitAdd (files : list string) (repoPath : option string)
  : M S GitOperationResponse :=
  try_catch
    (git <- getGit (repo repoPath) ;;
     Git.add git files ;;;
     ret (ok_msg ("Staged " +:+ len_str files +:+ " file(s): " +:+ join ", " files)))
    (fun error => ret (failure ("Failed to stage files: " +:+ error))).

Definition gitReset (files : option (list string)) (mode : option ResetMode)
  (commit : option string) (repoPath : option string) : M S GitOperationResponse :=
  try_catch
    (git <- getGit (repo repoPath) ;;
     if has_files files then
       let ref := or_else commit "HEAD" in
       Git.reset git (ref :: file_list files) ;;;
       ret (ok_msg ("Unstaged " +:+ len_str (file_list files) +:+ " file(s): "
                    +:+ join ", " (file_list files)))
     else
       let mode := mode_str (default mixed mode) in
       let target := or_else commit "HEAD" in
       Git.reset git ["--" +:+ mode; target] ;;;
       ret (ok_msg ("Reset to " +:+ target +:+ " (" +:+ mode +:+ " mode)")))
    (fun error => ret (failure ("Failed to reset: " +:+ error))).

Definition gitRestore (files : list string) (staged : option bool)
  (repoPath : option string) : M S GitOperationResponse :=
  try_catch
    (git <- getGit (repo repoPath) ;;
     let options := if truthy_bool staged then "--staged" :: files else files in
     Git.raw git ("restore" :: options) ;;;
     ret (ok_msg (if truthy_bool staged
                  then "Restored " +:+ len_str files +:+ " file(s) from staging"
                  else "Restored " +:+ len_str files +:+ " file(s) from HEAD")))
    (fun error => ret (failure ("Failed to restore files: " +:+ error))).

(** *** commit-operations.ts *)

Definition commit_options (amend : option bool) : GitCommitOptions :=
  let options := [] in
  if truthy_bool amend then options ++ [("--amend", JNull)] else options.

Definition gitCommit (message : string) (files : option (list string))
  (amend : option bool) (repoPath : option string) : M S GitOperationResponse :=
  try_catch
    (git <- getGit (repo repoPath) ;;
     let options := commit_options amend in
     result <- (if has_files files then
                  Git.add git (file_list files) ;;;
                  Git.commit git message None options
                else
                  Git.commit git message None options) ;;
     ret (ok_data ("Committed changes: " +:+ commit result)
            (JObj [("commit", JStr (commit result));
                   ("summary", ChangeSummary_json (summary result))])))
    (fun error => ret (failure ("Failed to commit: " +:+ error))).

(** [options = {}], then [maxCount] and [file] are set when truthy. *)
Definition log_options (maxCount : option Z) (file : option string) : GitLogOptions :=
  {| lo_maxCount := if truthy_num maxCount then maxCount else None;
     lo_file := if truthy_str file then file else None;
     lo_from := None;
     lo_to := None |}.

Definition CommitInfo (commit : GitCommit) : JSON :=
  JObj [("hash", JStr (hash commit));
        ("date", JStr (date commit));
        ("message", JStr (c_message commit));
        ("author_name", JStr (author_name commit));
        ("author_email", JStr (author_email commit))].

Definition gitLog (maxCount : option Z) (file : option string)
  (repoPath : option string) : M S GitOperationResponse :=
  try_catch
    (git <- getGit (repo repoPath) ;;
     let options := log_options maxCount file in
     log <- Git.log git options ;;
     let commits := map CommitInfo (log_all log) in
     ret (ok_data ("Retrieved " +:+ len_str commits +:+ " commit(s)") (JArr commits)))
    (fun error => ret (failure ("Failed to get log: " +:+ error))).

Definition gitShow (ref repoPath : option string) : M S GitOperationResponse :=
  try_catch
    (git <- getGit (repo repoPath) ;;
     let ref := or_else ref "HEAD" in
     show <- Git.show git [ref] ;;
     ret (ok_data ("Details for " +:+ ref) (JStr show)))
    (fun error => ret (failure ("Failed to show commit: " +:+ error))).

(** *** advanced-operations.ts *)

Definition gitRebase (branch : string) (interactive : option bool)
  (repoPath : option string) : M S GitOperationResponse :=
  try_catch
    (git <- getGit (repo repoPath) ;;
     let options := if truthy_bool interactive then ["-i"; branch] else [branch] in
     Git.rebase git options ;;;
     ret (ok_msg ("Rebased onto '" +:+ branch +:+ "'")))
    (fun error => ret (failure ("Failed to rebase: " +:+ error))).

Definition stash_push_options (message : option string) (includeUntracked : option bool)
  : list string :=
  let options := ["push"] in
  let options := if truthy_bool includeUntracked then options ++ ["-u"] else options in
  let options := if truthy_str message then options ++ ["-m"; str message] else options in
  options.

Definition gitStash (message : option string) (includeUntracked : option bool)
  (repoPath : option string) : M S GitOperationResponse :=
  try_catch
    (git <- getGit (repo repoPath) ;;
     let options := stash_push_options message includeUntracked in
     Git.stash git options ;;;
     ret (ok_msg (if truthy_str message
                  then "Stashed changes: " +:+ str message
                  else "Stashed changes")))
    (fun error => ret (failure ("Failed to stash: " +:+ error))).

(** [index !== undefined] is a test for presence: [0] counts. *)
Definition stash_pop_options (index : option Z) : list string :=
  let options := ["pop"] in
  match index with
  | Some i => options ++ ["stash@{" +:+ num_str i +:+ "}"]
  | None => options
  end.

Definition gitStashPop (index : option Z) (repoPath : option string)
  : M S GitOperationResponse :=
  try_catch
    (git <- getGit (repo repoPath) ;;
     let options := stash_pop_options index in
     Git.stash git options ;;;
     ret (ok_msg (match index with
                  | Some i => "Applied stash@{" +:+ num_str i +:+ "}"
                  | None => "Applied most recent stash"
                  end)))
    (fun error => ret (failure ("Failed to pop stash: " +:+ error))).

Definition gitStashList (repoPath : option string) : M S GitOperationResponse :=
  try_catch
    (git <- getGit (repo repoPath) ;;
     stashList <- Git.stashList git ;;
     ret (ok_data ("Found " +:+ num_str (sl_total stashList) +:+ " stash(es)")
            (JArr (map GitStashEntry_json (sl_all stashList)))))
    (fun error => ret (failure ("Failed to list stashes: " +:+ error))).

Definition gitCherryPick (commit : string) (repoPath : option string)
  : M S GitOperationResponse :=
  try_catch
    (git <- getGit (repo repoPath) ;;
     Git.raw git ["cherry-pick"; commit] ;;;
     ret (ok_msg ("Cherry-picked commit " +:+ commit)))
    (fun error => ret (failure ("Failed to cherry-pick: " +:+ error))).

(** *** remote-operations.ts *)

Definition RemoteData (remotes : list GitRemote) : list JSON :=
  map (fun remote =>
         JObj [("name", JStr (r_name remote));
               ("refs", JObj [("fetch", JStr (or_else (Some (r_fetch (r_refs remote))) ""));
                              ("push", JStr (or_else (Some (r_push (r_refs remote))) ""))])])
      remotes.

Definition gitRemoteList (repoPath : option string) : M S GitOperationResponse :=
  try_catch
    (git <- getGit (repo repoPath) ;;
     remotes <- Git.getRemotes git true ;;
     let data := RemoteData remotes in
     ret (ok_data ("Found " +:+ len_str data +:+ " remote(s)") (JArr data)))
    (fun error => ret (failure ("Failed to list remotes: " +:+ error))).

Definition gitRemoteAdd (name url : string) (repoPath : option string)
  : M S GitOperationResponse :=
  try_catch
    (git <- getGit (repo repoPath) ;;
     Git.addRemote git name url ;;;
     ret (ok_msg ("Added remote '" +:+ name +:+ "' (" +:+ url +:+ ")")))
    (fun error => ret (failure ("Failed to add remote: " +:+ error))).

Definition gitFetch (remote branch repoPath : option string)
  : M S GitOperationResponse :=
  try_catch
    (git <- getGit (repo repoPath) ;;
     (if truthy_str remote && truthy_str branch then Git.fetch git remote branch
      else if truthy_str remote then Git.fetch git remote None
      else Git.fetch git None None) ;;;
     ret (ok_msg (if truthy_str remote
                  then "Fetched from '" +:+ str remote +:+ "'"
                       +:+ (if truthy_str branch then " (" +:+ str branch +:+ ")" else "")
                  else "Fetched from all remotes")))
    (fun error => ret (failure ("Failed to fetch: " +:+ error))).

Definition pull_options (rebase : option bool) : GitPullOptions :=
  let options := [] in
  if truthy_bool rebase then options ++ [("--rebase", JNull)] else options.

(** ["<remote || 'origin'>" followed by "/<branch>" when a branch is given]. *)
Definition remote_target (remote branch : option string) : string :=
  or_else remote "origin" +:+ (if truthy_str branch then "/" +:+ str branch else "").

Definition gitPull (remote branch : option string) (rebase : option bool)
  (repoPath : option string) : M S GitOperationResponse :=
  try_catch
    (git <- getGit (repo repoPath) ;;
     let options := pull_options rebase in
     Git.pull git remote branch options ;;;
     ret (ok_msg ("Pulled from " +:+ remote_target remote branch)))
    (fun error => ret (failure ("Failed to pull: " +:+ error))).

Definition push_options (force setUpstream : option bool) : list string :=
  let options := [] in
  let options := if truthy_bool force then options ++ ["--force"] else options in
  let options := if truthy_bool setUpstream then options ++ ["--set-upstream"] else options in
  options.

Definition gitPush (remote branch : option string) (force setUpstream : option bool)
  (repoPath : option string) : M S GitOperationResponse :=
  try_catch
    (git <- getGit (repo repoPath) ;;
     let options := push_options force setUpstream in
     Git.push git remote branch options ;;;
     ret (ok_msg ("Pushed to " +:+ remote_target remote branch)))
    (fun error => ret (failure ("Failed to push: " +:+ error))).

(** The operations of the six groups, by invocation. *)
Definition run (op : Operation) : M S GitOperationResponse :=
  match op with
  | Op_gitStatus p => gitStatus p
  | Op_gitInit p => gitInit p
  | Op_gitClone url targetPath p => gitClone url targetPath p
  | Op_gitBranchList p => gitBranchList p
  | Op_gitBranchCreate branchName p => gitBranchCreate branchName p
  | Op_gitBranchDelete branchName force p => gitBranchDelete branchName force p
  | Op_gitCheckout ref createBranch p => gitCheckout ref createBranch p
  | Op_gitMerge branch noFastForward p => gitMerge branch noFastForward p
  | Op_gitDiff files cached fromCommit toCommit useThreeDotRange p =>
      gitDiff files cached fromCommit toCommit useThreeDotRange p
  | Op_gitAdd files p => gitAdd files p
  | Op_gitReset files mode commit p => gitReset files mode commit p
  | Op_gitRestore files staged p => gitRestore files staged p
  | Op_gitCommit message files amend p => gitCommit message files amend p
  | Op_gitLog maxCount file p => gitLog maxCount file p
  | Op_gitShow ref p => gitShow ref p
  | Op_gitRebase branch interactive p => gitRebase branch interactive p
  | Op_gitStash message includeUntracked p => gitStash message includeUntracked p
  | Op_gitStashPop index p => gitStashPop index p
  | Op_gitStashList p => gitStashList p
  | Op_gitCherryPick commit p => gitCherryPick commit p
  | Op_gitRemoteList p => gitRemoteList p
  | Op_gitRemoteAdd name url p => gitRemoteAdd name url p
  | Op_gitFetch remote branch p => gitFetch remote branch p
  | Op_gitPull remote branch rebase p => gitPull remote branch rebase p
  | Op_gitPush remote branch force setUpstream p => gitPush remote branch force setUpstream p
  end.

End Configure.
End GitTools.

(** ** __tests__/utils/mock-git-provider.ts: the test double

    The fields of the class are the repository state; [calls] and
    [shouldThrow] are the two [Record<string, _>] tables. *)

Module Mock.

Record MockState := {
  mockStatus : GitStatus;
  mockBranches : GitBranchSummary;
  mockCommits : list GitCommit;
  mockDiffOutput : string;
  mockDiffSummary : GitDiffSummary;
  mockCommitResult : GitCommitResult;
  mockMergeResult : GitMergeResult;
  mockStashList : GitStashList;
  mockRemotes : list GitRemote;
  mock_calls : gmap string (list Call);
  shouldThrow : gmap string bool
}.

Definition with_calls (s : MockState) (c : gmap string (list Call)) : MockState :=
  {| mockStatus := mockStatus s; mockBranches := mockBranches s;
     mockCommits := mockCommits s; mockDiffOutput := mockDiffOutput s;
     mockDiffSummary := mockDiffSummary s; mockCommitResult := mockCommitResult s;
     mockMergeResult := mockMergeResult s; mockStashList := mockStashList s;
     mockRemotes := mockRemotes s; mock_calls := c; shouldThrow := shouldThrow s |}.

Definition with_shouldThrow (s : MockState) (t : gmap string bool) : MockState :=
  {| mockStatus := mockStatus s; mockBranches := mockBranches s;
     mockCommits := mockCommits s; mockDiffOutput := mockDiffOutput s;
     mockDiffSummary := mockDiffSummary s; mockCommitResult := mockCommitResult s;
     mockMergeResult := mockMergeResult s; mockStashList := mockStashList s;
     mockRemotes := mockRemotes s; mock_calls := mock_calls s; shouldThrow := t |}.

(** The field initialisers of the class. *)
Definition initial : MockState :=
  {| mockStatus :=
       {| modified := []; created := []; deleted := []; renamed := [];
          conflicted := []; not_added := []; staged := [];
          current := Some "main"; tracking := Some "origin/main";
          ahead := 0; behind := 0; isClean := true |};
     mockBranches :=
       {| detached := false; bs_current := "main"; bs_all := ["main"];
          bs_branches :=
            {[ "main" := {| bi_name := "main"; bi_commit := "abc123";
                            bi_label := "main"; bi_current := true |} ]} |};
     mockCommits :=
       [{| hash := "abc123"; date := "2024-01-01"; c_message := "Initial commit";
           author_name := "Test User"; author_email := "test@example.com";
           body := ""; refs := "" |}];
     mockDiffOutput :=
       "diff --git a/file.txt b/file.txt" +:+ newline +:+ "+added line";
     mockDiffSummary :=
       {| files := [{| file := "file.txt"; changes := Some 1%Z; insertions := Some 1%Z;
                       deletions := Some 0%Z; binary := false |}];
          ds_insertions := 1; ds_deletions := 0; ds_changed := 1 |};
     mockCommitResult :=
       {| commit := "def456"; cr_branch := "main";
          author := Some "Test User <test@example.com>";
          summary := {| sum_changes := 1; sum_insertions := 1; sum_deletions := 0 |} |};
     mockMergeResult :=
       {| merges := ["feature-branch"]; conflicts := []; result := "success";
          mr_summary := {| sum_changes := 1; sum_insertions := 1; sum_deletions := 0 |} |};
     mockStashList := {| sl_all := []; sl_total := 0; sl_latest := None |};
     mockRemotes :=
       [{| r_name := "origin";
           r_refs := {| r_fetch := "https://github.com/user/repo.git";
                        r_push := "https://github.com/user/repo.git" |} |}];
     mock_calls := ∅;
     shouldThrow := ∅ |}.

Definition recordCall (method : string) (args : Call) (s : MockState) : MockState :=
  with_calls s (<[method := default [] (mock_calls s !! method) ++ [args]]> (mock_calls s)).

Definition checkThrow (method : string) (s : MockState) : Result unit :=
  if default false (shouldThrow s !! method)
  then Throw ("Mock error for " +:+ method)
  else Ok ().

(** The common shape of the methods: record, check, return. *)
Definition method {A} (name : string) (args : Call) (value : MockState -> A)
  : Prim MockState A :=
  fun s =>
    let s := recordCall name args s in
    match checkThrow name s with
    | Throw e => (Throw e, s)
    | Ok _ => (Ok (value s), s)
    end.

Definition MockGitProvider : GitProvider MockState :=
  {| prim_checkIsRepo := method "checkIsRepo" C_checkIsRepo (fun _ => true);
     prim_status := method "status" C_status mockStatus;
     prim_init := method "init" C_init (fun _ => ());
     prim_clone url targetPath := method "clone" (C_clone url targetPath) (fun _ => ());
     prim_branch := method "branch" (C_branch None) mockBranches;
     prim_branch_args args := method "branch" (C_branch (Some args)) (fun _ => ());
     prim_checkout ref := method "checkout" (C_checkout ref) (fun _ => ());
     prim_checkoutBranch branchName startPoint :=
       method "checkoutBranch" (C_checkoutBranch branchName startPoint) (fun _ => ());
     prim_merge args := method "merge" (C_merge args) mockMergeResult;
     prim_diff args := method "diff" (C_diff args) mockDiffOutput;
     prim_diffSummary args := method "diffSummary" (C_diffSummary args) mockDiffSummary;
     prim_add files := method "add" (C_add files) (fun _ => ());
     prim_reset args := method "reset" (C_reset args) (fun _ => ());
     prim_raw args := method "raw" (C_raw args) (fun _ => "");
     prim_commit message files options :=
       method "commit" (C_commit message files options) mockCommitResult;
     prim_log options :=
       method "log" (C_log options)
         (fun s => {| log_all := mockCommits s;
                      log_total := Z.of_nat (length (mockCommits s));
                      log_latest := head (mockCommits s) |});
     prim_show args :=
       method "show" (C_show args)
         (fun _ => "commit abc123" +:+ newline +:+ "Author: Test User"
                   +:+ newline +:+ "Date: 2024-01-01"
                   +:+ newline +:+ newline +:+ "Initial commit");
     prim_rebase args := method "rebase" (C_rebase args) (fun _ => ());
     prim_stash args := method "stash" (C_stash args) (fun _ => ());
     prim_stashList := method "stashList" C_stashList mockStashList;
     prim_getRemotes verbose := method "getRemotes" (C_getRemotes verbose) mockRemotes;
     prim_addRemote name url := method "addRemote" (C_addRemote name url) (fun _ => ());
     prim_fetch remote branch := method "fetch" (C_fetch remote branch) (fun _ => ());
     prim_pull remote branch options :=
       method "pull" (C_pull remote branch options) (fun _ => ());
     prim_push remote branch options :=
       method "push" (C_push remote branch options) (fun _ => ()) |}.

(** [resetMock], [setError] and [getCalls]. *)
Definition resetMock (s : MockState) : MockState :=
  with_shouldThrow (with_calls s ∅) ∅.
Definition setError (method : string) (s : MockState) : MockState :=
  with_shouldThrow s (<[method := true]> (shouldThrow s)).
Definition getCalls (method : string) (s : MockState) : list Call :=
  default [] (mock_calls s !! method).

Section Factory.
Variable cwd : string.

Definition createMockGitProviderFactory (provider : GitProvider MockState)
: GitProviderFactory MockState := fun args =>
let repoPath := fa_repoPath args in
let required := default true (fa_required args) in
if required then
  isRepo <- Git.checkIsRepo provider ;;
  if negb isRepo
  then throw ("Not a git repository: " +:+ or_else repoPath cwd)
  else ret provider
else ret provider.
End Factory.

End Mock.

(** ** git-tools.ts: the module-level operations

    The earlier, single-module form of the operations, which [index.ts]
    imports as [gitTools]. There is no factory: every operation checks
    the repository with [verifyGitRepo] and then binds simple-git itself.
    Where an operation builds the same arguments and payload as its
    counterpart in [GitTools], the helper of [GitTools] is reused. *)

Module Legacy.
Section GitTools.
Context {S : Type}.
Variable cwd : string.
Variable simpleGit : string -> S -> Result (GitProvider S).
Variable path_basename : string -> string -> string.

Definition getGit (repoPath : option string) : M S (GitProvider S) :=
  let basePath := or_else repoPath cwd in
  SimpleGit.bind_simpleGit simpleGit basePath.

(** [null] is [None]: no error. *)
Definition verifyGitRepo (repoPath : option string) : M S (option GitOperationResponse) :=
  try_catch
    (git <- getGit repoPath ;;
     isRepo <- Git.checkIsRepo git ;;
     if negb isRepo
     then ret (Some (failure ("Not a git repository: " +:+ or_else repoPath cwd)))
     else ret None)
    (fun error => ret (Some (failure ("Error verifying repository: " +:+ error)))).

(** [if (error) return error;] followed by the rest of the body. *)
Definition unless (error : option GitOperationResponse)
  (rest : M S GitOperationResponse) : M S GitOperationResponse :=
  match error with
  | Some error => ret error
  | None => rest
  end.

(** *** Repository management *)

Definition gitStatus (repoPath : option string) : M S GitOperationResponse :=
  try_catch
    (error <- verifyGitRepo repoPath ;;
     unless error (
     git <- getGit repoPath ;;
     status <- Git.status git ;;
     let data := GitTools.StatusData status in
     ret (ok_data (if isClean status then "Working tree clean"
                   else "Working tree has changes") data)))
    (fun error => ret (failure ("Failed to get status: " +:+ error))).

Definition gitInit (repoPath : option string) : M S GitOperationResponse :=
  try_catch
    (git <- getGit repoPath ;;
     Git.init git ;;;
     ret (ok_msg ("Initialized empty Git repository in " +:+ or_else repoPath cwd)))
    (fun error => ret (failure ("Failed to initialize repository: " +:+ error))).

Definition gitClone (url : string) (targetPath repoPath : option string)
  : M S GitOperationResponse :=
  try_catch
    (git <- getGit repoPath ;;
     let target := if truthy_str targetPath then default "" targetPath
                   else path_basename url ".git" in
     Git.clone git url target ;;;
     ret (ok_msg ("Cloned repository from " +:+ url +:+ " to " +:+ target)))
    (fun error => ret (failure ("Failed to clone repository: " +:+ error))).

(** *** Branch operations *)

Definition gitBranchList (repoPath : option string) : M S GitOperationResponse :=
  try_catch
    (error <- verifyGitRepo repoPath ;;
     unless error (
     git <- getGit repoPath ;;
     branches <- Git.branch git ;;
     let data := GitTools.BranchData branches in
     ret (ok_data ("Found " +:+ len_str data +:+ " branches") (JArr data))))
    (fun error => ret (failure ("Failed to list branches: " +:+ error))).

Definition gitBranchCreate (branchName : string) (repoPath : option string)
  : M S GitOperationResponse :=
  try_catch
    (error <- verifyGitRepo repoPath ;;
     unless error (
     git <- getGit repoPath ;;
     Git.branch_args git [branchName] ;;;
     ret (ok_msg ("Created branch '" +:+ branchName +:+ "'"))))
    (fun error => ret (failure ("Failed to create branch: " +:+ error))).

Definition gitBranchDelete (branchName : string) (force : option bool)
  (repoPath : option string) : M S GitOperationResponse :=
  try_catch
    (error <- verifyGitRepo repoPath ;;
     unless error (
     git <- getGit repoPath ;;
     let deleteFlag := if truthy_bool force then "-D" else "-d" in
     Git.branch_args git [deleteFlag; branchName] ;;;
     ret (ok_msg ("Deleted branch '" +:+ branchName +:+ "'"))))
    (fun error => ret (failure ("Failed to delete branch: " +:+ error))).

Definition gitCheckout (ref : string) (createBranch : option bool)
  (repoPath : option string) : M S GitOperationResponse :=
  try_catch
    (error <- verifyGitRepo repoPath ;;
     unless error (
     git <- getGit repoPath ;;
     (if truthy_bool createBranch
      then Git.checkoutBranch git ref "HEAD"
      else Git.checkout git ref) ;;;
     ret (ok_msg (if truthy_bool createBranch
                  then "Created and switched to branch '" +:+ ref +:+ "'"
                  else "Switched to '" +:+ ref +:+ "'"))))
    (fun error => ret (failure ("Failed to checkout: " +:+ error))).

Definition gitMerge (branch : string) (noFastForward : option bool)
  (repoPath : option string) : M S GitOperationResponse :=
  try_catch
    (error <- verifyGitRepo repoPath ;;
     unless error (
     git <- getGit repoPath ;;
     let options := if truthy_bool noFastForward then ["--no-ff"] else [] in
     result <- Git.merge git (options ++ [branch]) ;;
     ret (ok_data ("Merged branch '" +:+ branch +:+ "'") (GitMergeResult_json result))))
    (fun error => ret (failure ("Failed to merge: " +:+ error))).

(** *** File operations *)

Definition DiffData (diffSummary : GitDiffSummary) : JSON :=
  JObj [("files",
         JArr (map (fun f =>
                      JObj [("file", JStr (file f));
                            ("changes", JNum (default 0%Z (changes f)));
                            ("insertions", JNum (default 0%Z (insertions f)));
                            ("deletions", JNum (default 0%Z (deletions f)))])
                   (files diffSummary)));
        ("insertions", JNum (ds_insertions diffSummary));
        ("deletions", JNum (ds_deletions diffSummary));
        ("changed", JNum (ds_changed diffSummary))].

(** [files?.length || 'all']. *)
Definition file_count (files : option (list string)) : string :=
  if has_files files then len_str (file_list files) else "all".

Definition gitDiff (files : option (list string)) (cached : option bool)
  (repoPath : option string) : M S GitOperationResponse :=
  try_catch
    (error <- verifyGitRepo repoPath ;;
     unless error (
     git <- getGit repoPath ;;
     diff <- (if truthy_bool cached
              then Git.diff git ("--cached" :: file_list files)
              else Git.diff git (file_list files)) ;;
     diffSummary <- Git.diffSummary git (if truthy_bool cached then ["--cached"] else []) ;;
     let data := DiffData diffSummary in
     ret (ok_data ("Diff for " +:+ file_count files +:+ " file(s)")
            (JObj [("summary", data); ("diff", JStr diff)]))))
    (fun error => ret (failure ("Failed to get diff: " +:+ error))).

Definition gitAdd (files : list string) (repoPath : option string)
  : M S GitOperationResponse :=
  try_catch
    (error <- verifyGitRepo repoPath ;;
     unless error (
     git <- getGit repoPath ;;
     Git.add git files ;;;
     ret (ok_msg ("Staged " +:+ len_str files +:+ " file(s): " +:+ join ", " files))))
    (fun error => ret (failure ("Failed to stage files: " +:+ error))).

Definition gitReset (files : option (list string)) (mode : option ResetMode)
  (commit : option string) (repoPath : option string) : M S GitOperationResponse :=
  try_catch
    (error <- verifyGitRepo repoPath ;;
     unless error (
     git <- getGit repoPath ;;
     if has_files files then
       let ref := or_else commit "HEAD" in
       Git.reset git (ref :: file_list files) ;;;
       ret (ok_msg ("Unstaged " +:+ len_str (file_list files) +:+ " file(s): "
                    +:+ join ", " (file_list files)))
     else
       let mode := mode_str (default mixed mode) in
       let target := or_else commit "HEAD" in
       Git.reset git ["--" +:+ mode; target] ;;;
       ret (ok_msg ("Reset to " +:+ target +:+ " (" +:+ mode +:+ " mode)"))))
    (fun error => ret (failure ("Failed to reset: " +:+ error))).

Definition gitRestore (files : list string) (staged : option bool)
  (repoPath : option string) : M S GitOperationResponse :=
  try_catch
    (error <- verifyGitRepo repoPath ;;
     unless error (
     git <- getGit repoPath ;;
     let options := if truthy_bool staged then "--staged" :: files else files in
     Git.raw git ("restore" :: options) ;;;
     ret (ok_msg (if truthy_bool staged
                  then "Restored " +:+ len_str files +:+ " file(s) from staging"
                  else "Restored " +:+ len_str files +:+ " file(s) from HEAD"))))
    (fun error => ret (failure ("Failed to restore files: " +:+ error))).

(** *** Commit operations *)

Definition gitCommit (message : string) (files : option (list string))
  (amend : option bool) (repoPath : option string) : M S GitOperationResponse :=
  try_catch
    (error <- verifyGitRepo repoPath ;;
     unless error (
     git <- getGit repoPath ;;
     let options := GitTools.commit_options amend in
     result <- (if has_files files then
                  Git.add git (file_list files) ;;;
                  Git.commit git message None options
                else
                  Git.commit git message None options) ;;
     ret (ok_data ("Committed changes: " +:+ commit result)
            (JObj [("commit", JStr (commit result));
                   ("summary", ChangeSummary_json (summary result))]))))
    (fun error => ret (failure ("Failed to commit: " +:+ error))).

Definition gitLog (maxCount : option Z) (file : option string)
  (repoPath : option string) : M S GitOperationResponse :=
  try_catch
    (error <- verifyGitRepo repoPath ;;
     unless error (
     git <- getGit repoPath ;;
     let options := GitTools.log_options maxCount file in
     log <- Git.log git options ;;
     let commits := map GitTools.CommitInfo (log_all log) in
     ret (ok_data ("Retrieved " +:+ len_str commits +:+ " commit(s)") (JArr commits))))
    (fun error => ret (failure ("Failed to get log: " +:+ error))).

Definition gitShow (ref repoPath : option string) : M S GitOperationResponse :=
  try_catch
    (error <- verifyGitRepo repoPath ;;
     unless error (
     git <- getGit repoPath ;;
     let ref := or_else ref "HEAD" in
     show <- Git.show git [ref] ;;
     ret (ok_data ("Details for " +:+ ref) (JStr show))))
    (fun error => ret (failure ("Failed to show commit: " +:+ error))).

(** *** Advanced operations *)

Definition gitRebase (branch : string) (interactive : option bool)
  (repoPath : option string) : M S GitOperationResponse :=
  try_catch
    (error <- verifyGitRepo repoPath ;;
     unless error (
     git <- getGit repoPath ;;
     let options := if truthy_bool interactive then ["-i"; branch] else [branch] in
     Git.rebase git options ;;;
     ret (ok_msg ("Rebased onto '" +:+ branch +:+ "'"))))
    (fun error => ret (failure ("Failed to rebase: " +:+ error))).

Definition gitStash (message : option string) (includeUntracked : option bool)
  (repoPath : option string) : M S GitOperationResponse :=
  try_catch
    (error <- verifyGitRepo repoPath ;;
     unless error (
     git <- getGit repoPath ;;
     let options := GitTools.stash_push_options message includeUntracked in
     Git.stash git options ;;;
     ret (ok_msg (if truthy_str message
                  then "Stashed changes: " +:+ str message
                  else "Stashed changes"))))
    (fun error => ret (failure ("Failed to stash: " +:+ error))).

Definition gitStashPop (index : option Z) (repoPath : option string)
  : M S GitOperationResponse :=
  try_catch
    (error <- verifyGitRepo repoPath ;;
     unless error (
     git <- getGit repoPath ;;
     let options := GitTools.stash_pop_options index in
     Git.stash git options ;;;
     ret (ok_msg (match index with
                  | Some i => "Applied stash@{" +:+ num_str i +:+ "}"
                  | None => "Applied most recent stash"
                  end))))
    (fun error => ret (failure ("Failed to pop stash: " +:+ error))).

Definition gitStashList (repoPath : option string) : M S GitOperationResponse :=
  try_catch
    (error <- verifyGitRepo repoPath ;;
     unless error (
     git <- getGit repoPath ;;
     stashList <- Git.stashList git ;;
     ret (ok_data ("Found " +:+ num_str (sl_total stashList) +:+ " stash(es)")
            (JArr (map GitStashEntry_json (sl_all stashList))))))
    (fun error => ret (failure ("Failed to list stashes: " +:+ error))).

Definition gitCherryPick (commit : string) (repoPath : option string)
  : M S GitOperationResponse :=
  try_catch
    (error <- verifyGitRepo repoPath ;;
     unless error (
     git <- getGit repoPath ;;
     Git.raw git ["cherry-pick"; commit] ;;;
     ret (ok_msg ("Cherry-picked commit " +:+ commit))))
    (fun error => ret (failure ("Failed to cherry-pick: " +:+ error))).

(** *** Remote operations *)

Definition gitRemoteList (repoPath : option string) : M S GitOperationResponse :=
  try_catch
    (error <- verifyGitRepo repoPath ;;
     unless error (
     git <- getGit repoPath ;;
     remotes <- Git.getRemotes git true ;;
     let data := GitTools.RemoteData remotes in
     ret (ok_data ("Found " +:+ len_str data +:+ " remote(s)") (JArr data))))
    (fun error => ret (failure ("Failed to list remotes: " +:+ error))).

Definition gitRemoteAdd (name url : string) (repoPath : option string)
  : M S GitOperationResponse :=
  try_catch
    (error <- verifyGitRepo repoPath ;;
     unless error (
     git <- getGit repoPath ;;
     Git.addRemote git name url ;;;
     ret (ok_msg ("Added remote '" +:+ name +:+ "' (" +:+ url +:+ ")"))))
    (fun error => ret (failure ("Failed to add remote: " +:+ error))).

Definition gitFetch (remote branch repoPath : option string)
  : M S GitOperationResponse :=
  try_catch
    (error <- verifyGitRepo repoPath ;;
     unless error (
     git <- getGit repoPath ;;
     (if truthy_str remote && truthy_str branch then Git.fetch git remote branch
      else if truthy_str remote then Git.fetch git remote None
      else Git.fetch git None None) ;;;
     ret (ok_msg (if truthy_str remote
                  then "Fetched from '" +:+ str remote +:+ "'"
                       +:+ (if truthy_str branch then " (" +:+ str branch +:+ ")" else "")
                  else "Fetched from all remotes"))))
    (fun error => ret (failure ("Failed to fetch: " +:+ error))).

Definition gitPull (remote branch : option string) (rebase : option bool)
  (repoPath : option string) : M S GitOperationResponse :=
  try_catch
    (error <- verifyGitRepo repoPath ;;
     unless error (
     git <- getGit repoPath ;;
     let options := GitTools.pull_options rebase in
     Git.pull git remote branch options ;;;
     ret (ok_msg ("Pulled from " +:+ GitTools.remote_target remote branch))))
    (fun error => ret (failure ("Failed to pull: " +:+ error))).

Definition gitPush (remote branch : option string) (force setUpstream : option bool)
  (repoPath : option string) : M S GitOperationResponse :=
  try_catch
    (error <- verifyGitRepo repoPath ;;
     unless error (
     git <- getGit repoPath ;;
     let options := GitTools.push_options force setUpstream in
     Git.push git remote branch options ;;;
     ret (ok_msg ("Pushed to " +:+ GitTools.remote_target remote branch))))
    (fun error => ret (failure ("Failed to push: " +:+ error))).

(** The exported functions, by invocation; [gitDiff] here takes only
    [files], [cached] and [repoPath] from its argument object. *)
Definition run (op : Operation) : M S GitOperationResponse :=
  match op with
  | Op_gitStatus p => gitStatus p
  | Op_gitInit p => gitInit p
  | Op_gitClone url targetPath p => gitClone url targetPath p
  | Op_gitBranchList p => gitBranchList p
  | Op_gitBranchCreate branchName p => gitBranchCreate branchName p
  | Op_gitBranchDelete branchName force p => gitBranchDelete branchName force p
  | Op_gitCheckout ref createBranch p => gitCheckout ref createBranch p
  | Op_gitMerge branch noFastForward p => gitMerge branch noFastForward p
  | Op_gitDiff files cached _ _ _ p => gitDiff files cached p
  | Op_gitAdd files p => gitAdd files p
  | Op_gitReset files mode commit p => gitReset files mode commit p
  | Op_gitRestore files staged p => gitRestore files staged p
  | Op_gitCommit message files amend p => gitCommit message files amend p
  | Op_gitLog maxCount file p => gitLog maxCount file p
  | Op_gitShow ref p => gitShow ref p
  | Op_gitRebase branch interactive p => gitRebase branch interactive p
  | Op_gitStash message includeUntracked p => gitStash message includeUntracked p
  | Op_gitStashPop index p => gitStashPop index p
  | Op_gitStashList p => gitStashList p
  | Op_gitCherryPick commit p => gitCherryPick commit p
  | Op_gitRemoteList p => gitRemoteList p
  | Op_gitRemoteAdd name url p => gitRemoteAdd name url p
  | Op_gitFetch remote branch p => gitFetch remote branch p
  | Op_gitPull remote branch rebase p => gitPull remote branch rebase p
  | Op_gitPush remote branch force setUpstream p => gitPush remote branch force setUpstream p
  end.

End GitTools.
End Legacy.

(** ** index.ts: the tool catalog and the dispatcher *)

Module Server.

(** *** The catalog

    A [Tool] descriptor carries its name, its description, the
    properties of its input schema with their types, the [required]
    list when the schema has one, and its annotations. The prose
    attached to each single property is documentation only and is not
    carried. *)

Inductive PropertyType : Type :=
| TString
| TBoolean
| TNumber
| TStringArray
| TEnum (values : list string).

Record InputSchema := {
  properties : list (string * PropertyType);
  required : option (list string)
}.

Record Annotations := {
  readOnly : option bool;
  dangerous : option bool;
  requiresConfirmation : option bool
}.

Record Tool := {
  name : string;
  description : string;
  inputSchema : InputSchema;
  annotations : option Annotations
}.

Definition tools : list Tool := [
  {| name := "git_status";
     description := "Show the working tree status including modified, staged, and untracked files";
     inputSchema :=
       {| properties := [("repoPath", TString)];
          required := None |};
     annotations := Some {| readOnly := Some true; dangerous := None; requiresConfirmation := None |} |};
  {| name := "git_init";
     description := "Initialize a new git repository";
     inputSchema :=
       {| properties := [("repoPath", TString)];
          required := None |};
     annotations := None |};
  {| name := "git_clone";
     description := "Clone a repository from a URL";
     inputSchema :=
       {| properties := [("url", TString); ("targetPath", TString); ("repoPath", TString)];
          required := Some ["url"] |};
     annotations := None |};
  {| name := "git_branch_list";
     description := "List all branches in the repository";
     inputSchema :=
       {| properties := [("repoPath", TString)];
          required := None |};
     annotations := Some {| readOnly := Some true; dangerous := None; requiresConfirmation := None |} |};
  {| name := "git_branch_create";
     description := "Create a new branch";
     inputSchema :=
       {| properties := [("branchName", TString); ("repoPath", TString)];
          required := Some ["branchName"] |};
     annotations := None |};
  {| name := "git_branch_delete";
     description := "Delete a branch";
     inputSchema :=
       {| properties := [("branchName", TString); ("force", TBoolean); ("repoPath", TString)];
          required := Some ["branchName"] |};
     annotations := Some {| readOnly := None; dangerous := Some true; requiresConfirmation := Some true |} |};
  {| name := "git_checkout";
     description := "Switch branches or restore working tree files";
     inputSchema :=
       {| properties := [("ref", TString); ("createBranch", TBoolean); ("repoPath", TString)];
          required := Some ["ref"] |};
     annotations := None |};
  {| name := "git_merge";
     description := "Merge a branch into the current branch";
     inputSchema :=
       {| properties := [("branch", TString); ("noFastForward", TBoolean); ("repoPath", TString)];
          required := Some ["branch"] |};
     annotations := None |};
  {| name := "git_diff";
     description := "Show changes between commits, commit and working tree, etc. Supports commit ranges like HEAD...origin/master";
     inputSchema :=
       {| properties := [("files", TStringArray); ("cached", TBoolean); ("fromCommit", TString); ("toCommit", TString); ("useThreeDotRange", TBoolean); ("repoPath", TString)];
          required := None |};
     annotations := Some {| readOnly := Some true; dangerous := None; requiresConfirmation := None |} |};
  {| name := "git_add";
     description := "Add file contents to the staging area";
     inputSchema :=
       {| properties := [("files", TStringArray); ("repoPath", TString)];
          required := Some ["files"] |};
     annotations := None |};
  {| name := "git_reset";
     description := "Unstage files or reset current HEAD to specified state";
     inputSchema :=
       {| properties := [("files", TStringArray); ("mode", TEnum ["soft"; "mixed"; "hard"]); ("commit", TString); ("repoPath", TString)];
          required := None |};
     annotations := Some {| readOnly := None; dangerous := Some true; requiresConfirmation := Some true |} |};
  {| name := "git_restore";
     description := "Restore working tree files";
     inputSchema :=
       {| properties := [("files", TStringArray); ("staged", TBoolean); ("repoPath", TString)];
          required := Some ["files"] |};
     annotations := Some {| readOnly := None; dangerous := Some true; requiresConfirmation := Some true |} |};
  {| name := "git_commit";
     description := "Record changes to the repository";
     inputSchema :=
       {| properties := [("message", TString); ("files", TStringArray); ("amend", TBoolean); ("repoPath", TString)];
          required := Some ["message"] |};
     annotations := None |};
  {| name := "git_log";
     description := "Show commit logs";
     inputSchema :=
       {| properties := [("maxCount", TNumber); ("file", TString); ("repoPath", TString)];
          required := None |};
     annotations := Some {| readOnly := Some true; dangerous := None; requiresConfirmation := None |} |};
  {| name := "git_show";
     description := "Show details of a commit";
     inputSchema :=
       {| properties := [("ref", TString); ("repoPath", TString)];
          required := None |};
     annotations := Some {| readOnly := Some true; dangerous := None; requiresConfirmation := None |} |};
  {| name := "git_rebase";
     description := "Reapply commits on top of another base tip";
     inputSchema :=
       {| properties := [("branch", TString); ("interactive", TBoolean); ("repoPath", TString)];
          required := Some ["branch"] |};
     annotations := Some {| readOnly := None; dangerous := Some true; requiresConfirmation := Some true |} |};
  {| name := "git_stash";
     description := "Stash the changes in a dirty working directory";
     inputSchema :=
       {| properties := [("message", TString); ("includeUntracked", TBoolean); ("repoPath", TString)];
          required := None |};
     annotations := None |};
  {| name := "git_stash_pop";
     description := "Apply stashed changes and remove them from stash list";
     inputSchema :=
       {| properties := [("index", TNumber); ("repoPath", TString)];
          required := None |};
     annotations := None |};
  {| name := "git_stash_list";
     description := "List all stashed changes";
     inputSchema :=
       {| properties := [("repoPath", TString)];
          required := None |};
     annotations := Some {| readOnly := Some true; dangerous := None; requiresConfirmation := None |} |};
  {| name := "git_cherry_pick";
     description := "Apply the changes introduced by an existing commit";
     inputSchema :=
       {| properties := [("commit", TString); ("repoPath", TString)];
          required := Some ["commit"] |};
     annotations := None |};
  {| name := "git_remote_list";
     description := "List all configured remotes";
     inputSchema :=
       {| properties := [("repoPath", TString)];
          required := None |};
     annotations := Some {| readOnly := Some true; dangerous := None; requiresConfirmation := None |} |};
  {| name := "git_remote_add";
     description := "Add a new remote";
     inputSchema :=
       {| properties := [("name", TString); ("url", TString); ("repoPath", TString)];
          required := Some ["name"; "url"] |};
     annotations := None |};
  {| name := "git_fetch";
     description := "Download objects and refs from another repository";
     inputSchema :=
       {| properties := [("remote", TString); ("branch", TString); ("repoPath", TString)];
          required := None |};
     annotations := Some {| readOnly := Some true; dangerous := None; requiresConfirmation := None |} |};
  {| name := "git_pull";
     description := "Fetch from and integrate with another repository or local branch";
     inputSchema :=
       {| properties := [("remote", TString); ("branch", TString); ("rebase", TBoolean); ("repoPath", TString)];
          required := None |};
     annotations := None |};
  {| name := "git_push";
     description := "Update remote refs along with associated objects";
     inputSchema :=
       {| properties := [("remote", TString); ("branch", TString); ("force", TBoolean); ("setUpstream", TBoolean); ("repoPath", TString)];
          required := None |};
     annotations := Some {| readOnly := None; dangerous := Some true; requiresConfirmation := Some true |} |}
].

(** The parameters a descriptor accepts, and those it marks required. *)
Definition accepted (t : Tool) : list string := map fst (properties (inputSchema t)).
Definition required_of (t : Tool) : list string := default [] (required (inputSchema t)).

Definition find_tool (n : string) : option Tool :=
  List.find (fun t => String.eqb (name t) n) tools.

(** *** The argument object

    The dispatcher passes [request.params.arguments], an untyped JSON
    object, to a function whose parameter has a declared type. A
    handler is modelled on the arguments that inhabit that type:
    [None] stands for an object outside it (a mandatory field missing,
    or a field of another type), on which the embedding is silent. *)

Definition as_string (v : JSON) : option string :=
  match v with JStr s => Some s | _ => None end.
Definition as_boolean (v : JSON) : option bool :=
  match v with JBool b => Some b | _ => None end.
Definition as_number (v : JSON) : option Z :=
  match v with JNum n => Some n | _ => None end.
Definition as_strings (v : JSON) : option (list string) :=
  match v with JArr items => mapM as_string items | _ => None end.
Definition as_mode (v : JSON) : option ResetMode :=
  match v with
  | JStr "soft" => Some soft
  | JStr "mixed" => Some mixed
  | JStr "hard" => Some hard
  | _ => None
  end.

(** [key: T] and [key?: T]. *)
Definition mandatory {A} (as_ : JSON -> option A) (key : string) (args : JSON) : option A :=
  get key args ≫= as_.
Definition optional {A} (as_ : JSON -> option A) (key : string) (args : JSON)
  : option (option A) :=
  match get key args with
  | None => Some None
  | Some v => Some <$> as_ v
  end.

Definition repoPath (args : JSON) := optional as_string "repoPath" args.

(** The parameter type of each exported function of [git-tools.ts]. *)
Definition args_gitStatus (args : JSON) : option Operation :=
  p ← repoPath args; Some (Op_gitStatus p).
Definition args_gitInit (args : JSON) : option Operation :=
  p ← repoPath args; Some (Op_gitInit p).
Definition args_gitClone (args : JSON) : option Operation :=
  url ← mandatory as_string "url" args;
  targetPath ← optional as_string "targetPath" args;
  p ← repoPath args; Some (Op_gitClone url targetPath p).
Definition args_gitBranchList (args : JSON) : option Operation :=
  p ← repoPath args; Some (Op_gitBranchList p).
Definition args_gitBranchCreate (args : JSON) : option Operation :=
  branchName ← mandatory as_string "branchName" args;
  p ← repoPath args; Some (Op_gitBranchCreate branchName p).
Definition args_gitBranchDelete (args : JSON) : option Operation :=
  branchName ← mandatory as_string "branchName" args;
  force ← optional as_boolean "force" args;
  p ← repoPath args; Some (Op_gitBranchDelete branchName force p).
Definition args_gitCheckout (args : JSON) : option Operation :=
  ref ← mandatory as_string "ref" args;
  createBranch ← optional as_boolean "createBranch" args;
  p ← repoPath args; Some (Op_gitCheckout ref createBranch p).
Definition args_gitMerge (args : JSON) : option Operation :=
  branch ← mandatory as_string "branch" args;
  noFastForward ← optional as_boolean "noFastForward" args;
  p ← repoPath args; Some (Op_gitMerge branch noFastForward p).
Definition args_gitDiff (args : JSON) : option Operation :=
  files ← optional as_strings "files" args;
  cached ← optional as_boolean "cached" args;
  p ← repoPath args; Some (Op_gitDiff files cached None None None p).
Definition args_gitAdd (args : JSON) : option Operation :=
  files ← mandatory as_strings "files" args;
  p ← repoPath args; Some (Op_gitAdd files p).
Definition args_gitReset (args : JSON) : option Operation :=
  files ← optional as_strings "files" args;
  mode ← optional as_mode "mode" args;
  commit ← optional as_string "commit" args;
  p ← repoPath args; Some (Op_gitReset files mode commit p).
Definition args_gitRestore (args : JSON) : option Operation :=
  files ← mandatory as_strings "files" args;
  staged ← optional as_boolean "staged" args;
  p ← repoPath args; Some (Op_gitRestore files staged p).
Definition args_gitCommit (args : JSON) : option Operation :=
  message ← mandatory as_string "message" args;
  files ← optional as_strings "files" args;
  amend ← optional as_boolean "amend" args;
  p ← repoPath args; Some (Op_gitCommit message files amend p).
Definition args_gitLog (args : JSON) : option Operation :=
  maxCount ← optional as_number "maxCount" args;
  file ← optional as_string "file" args;
  p ← repoPath args; Some (Op_gitLog maxCount file p).
Definition args_gitShow (args : JSON) : option Operation :=
  ref ← optional as_string "ref" args;
  p ← repoPath args; Some (Op_gitShow ref p).
Definition args_gitRebase (args : JSON) : option Operation :=
  branch ← mandatory as_string "branch" args;
  interactive ← optional as_boolean "interactive" args;
  p ← repoPath args; Some (Op_gitRebase branch interactive p).
Definition args_gitStash (args : JSON) : option Operation :=
  message ← optional as_string "message" args;
  includeUntracked ← optional as_boolean "includeUntracked" args;
  p ← repoPath args; Some (Op_gitStash message includeUntracked p).
Definition args_gitStashPop (args : JSON) : option Operation :=
  index ← optional as_number "index" args;
  p ← repoPath args; Some (Op_gitStashPop index p).
Definition args_gitStashList (args : JSON) : option Operation :=
  p ← repoPath args; Some (Op_gitStashList p).
Definition args_gitCherryPick (args : JSON) : option Operation :=
  commit ← mandatory as_string "commit" args;
  p ← repoPath args; Some (Op_gitCherryPick commit p).
Definition args_gitRemoteList (args : JSON) : option Operation :=
  p ← repoPath args; Some (Op_gitRemoteList p).
Definition args_gitRemoteAdd (args : JSON) : option Operation :=
  name ← mandatory as_string "name" args;
  url ← mandatory as_string "url" args;
  p ← repoPath args; Some (Op_gitRemoteAdd name url p).
Definition args_gitFetch (args : JSON) : option Operation :=
  remote ← optional as_string "remote" args;
  branch ← optional as_string "branch" args;
  p ← repoPath args; Some (Op_gitFetch remote branch p).
Definition args_gitPull (args : JSON) : option Operation :=
  remote ← optional as_string "remote" args;
  branch ← optional as_string "branch" args;
  rebase ← optional as_boolean "rebase" args;
  p ← repoPath args; Some (Op_gitPull remote branch rebase p).
Definition args_gitPush (args : JSON) : option Operation :=
  remote ← optional as_string "remote" args;
  branch ← optional as_string "branch" args;
  force ← optional as_boolean "force" args;
  setUpstream ← optional as_boolean "setUpstream" args;
  p ← repoPath args; Some (Op_gitPush remote branch force setUpstream p).

(** *** The handler table

    [toolHandlers]: each tool name with the function of [gitTools] it
    is mapped to, given by the invocation that function performs. *)
Definition toolHandlers : list (string * (JSON -> option Operation)) := [
  ("git_status", args_gitStatus);
  ("git_init", args_gitInit);
  ("git_clone", args_gitClone);
  ("git_branch_list", args_gitBranchList);
  ("git_branch_create", args_gitBranchCreate);
  ("git_branch_delete", args_gitBranchDelete);
  ("git_checkout", args_gitCheckout);
  ("git_merge", args_gitMerge);
  ("git_diff", args_gitDiff);
  ("git_add", args_gitAdd);
  ("git_reset", args_gitReset);
  ("git_restore", args_gitRestore);
  ("git_commit", args_gitCommit);
  ("git_log", args_gitLog);
  ("git_show", args_gitShow);
  ("git_rebase", args_gitRebase);
  ("git_stash", args_gitStash);
  ("git_stash_pop", args_gitStashPop);
  ("git_stash_list", args_gitStashList);
  ("git_cherry_pick", args_gitCherryPick);
  ("git_remote_list", args_gitRemoteList);
  ("git_remote_add", args_gitRemoteAdd);
  ("git_fetch", args_gitFetch);
  ("git_pull", args_gitPull);
  ("git_push", args_gitPush)
].

Definition handler_names : list string := map fst toolHandlers.

(** [toolHandlers] is an object literal, so [toolHandlers[name]] also
    finds the members every object inherits; they are no tool handlers,
    and the embedding is silent on them. *)
Definition Object_prototype : list string :=
  ["constructor"; "__defineGetter__"; "__defineSetter__"; "hasOwnProperty";
   "__lookupGetter__"; "__lookupSetter__"; "isPrototypeOf"; "propertyIsEnumerable";
   "toString"; "valueOf"; "__proto__"; "toLocaleString"].

Inductive Lookup : Type :=
| Own (handler : JSON -> option Operation)
| Inherited
| Undefined.

Fixpoint own (n : string) (table : list (string * (JSON -> option Operation)))
  : option (JSON -> option Operation) :=
  match table with
  | [] => None
  | (k, h) :: rest => if String.eqb k n then Some h else own n rest
  end.

Definition lookup_handler (n : string) : Lookup :=
  match own n toolHandlers with
  | Some h => Own h
  | None => if existsb (String.eqb n) Object_prototype then Inherited else Undefined
  end.

(** *** The request handlers *)

Record TextContent := { type : string; text : string }.
Record CallToolResult := { content : list TextContent }.

(** The object an envelope is when it is serialised: [data] is a key
    only when present. *)
Definition response_json (r : GitOperationResponse) : JSON :=
  JObj ([("success", JBool (success r)); ("message", JStr (message r))]
        ++ match data r with Some d => [("data", d)] | None => [] end).

Section Dispatcher.
Context {S : Type}.
Variable cwd : string.
Variable simpleGit : string -> S -> Result (GitProvider S).
Variable path_basename : string -> string -> string.
(** [JSON.stringify(value, null, space)]. *)
Variable JSON_stringify : JSON -> option nat -> string.

(** The [ListToolsRequestSchema] handler. *)
Definition listTools : list Tool := tools.

(** The [CallToolRequestSchema] handler, on [request.params], in two
    steps: [answer] is the object that is handed to [JSON.stringify],
    with the [space] argument of that call; [callTool] serialises it
    into the reply. *)
Definition answer (name : string) (arguments : option JSON)
  : option (M S (GitOperationResponse * option nat)) :=
  match lookup_handler name with
  | Undefined =>
      Some (ret (failure ("Unknown tool: " +:+ name), None))
  | Inherited => None
  | Own handler =>
      op ← handler (default (JObj []) arguments);
      Some (try_catch
              (result <- Legacy.run cwd simpleGit path_basename op ;;
               ret (result, Some 2))
              (fun error =>
                 ret (failure ("Error executing tool: " +:+ error), None)))
  end.

Definition text_reply (r : GitOperationResponse * option nat) : CallToolResult :=
  {| content := [{| type := "text"; text := JSON_stringify (response_json r.1) r.2 |}] |}.

Definition callTool (name : string) (arguments : option JSON)
  : option (M S CallToolResult) :=
  (fun m => r <- m ;; ret (text_reply r)) <$> answer name arguments.

End Dispatcher.
End Server.

(** ** Two hosts for examples *)

Module Node.
(** Node's [path.basename(path, suffix)] on POSIX paths, for a suffix
    without a slash: the last segment of the path, trailing slashes
    aside, without the suffix when it ends in it and is longer; the
    empty string when the path is the suffix. It instantiates the
    parameter [path_basename] in the examples. *)
Definition slash : Ascii.ascii := Ascii.ascii_of_nat 47.

Fixpoint segments (s : string) (cur : string) : list string :=
  match s with
  | EmptyString => [cur]
  | String c rest =>
      if Ascii.eqb c slash then cur :: segments rest ""
      else segments rest (cur +:+ String c "")
  end.

Definition last_segment (path : string) : string :=
  List.last (List.filter (fun x => negb (String.eqb x "")) (segments path "")) "".

Definition drop_suffix (suffix s : string) : string :=
  let n := String.length s - String.length suffix in
  if String.eqb (String.substring n (String.length suffix) s) suffix
     && negb (String.eqb s suffix) && negb (String.eqb suffix "")
  then String.substring 0 n s
  else s.

Definition basename (path suffix : string) : string :=
  if String.eqb path suffix then "" else drop_suffix suffix (last_segment path).
End Node.

Module Examples.
(** A directory without a repository: the check answers [false], and
    every other primitive faults as git does there. *)
Definition fatal {A} : Prim unit A :=
  fun s => (Throw "fatal: not a git repository", s).

Definition emptyDirectory : GitProvider unit :=
  {| prim_checkIsRepo := fun s => (Ok false, s);
     prim_status := fatal;
     prim_init := fun s => (Ok (), s);
     prim_clone _ _ := fun s => (Ok (), s);
     prim_branch := fatal;
     prim_branch_args _ := fatal;
     prim_checkout _ := fatal;
     prim_checkoutBranch _ _ := fatal;
     prim_merge _ := fatal;
     prim_diff _ := fatal;
     prim_diffSummary _ := fatal;
     prim_add _ := fatal;
     prim_reset _ := fatal;
     prim_raw _ := fatal;
     prim_commit _ _ _ := fatal;
     prim_log _ := fatal;
     prim_show _ := fatal;
     prim_rebase _ := fatal;
     prim_stash _ := fatal;
     prim_stashList := fatal;
     prim_getRemotes _ := fatal;
     prim_addRemote _ _ := fatal;
     prim_fetch _ _ := fatal;
     prim_pull _ _ _ := fatal;
     prim_push _ _ _ := fatal |}.

Definition nowhere : World unit := {| pstate := (); calls := [] |}.

(** simple-git bound to such a directory, whatever the path; the
    working directory of the process is [/work]. *)
Definition plain (basePath : string) (s : unit) : Result (GitProvider unit) :=
  Ok emptyDirectory.
Definition getGit : GitProviderFactory unit := SimpleGit.getGit "/work" plain.
Definition run : Operation -> M unit GitOperationResponse :=
  GitTools.run getGit "/work" Node.basename.
Definition answer := @Server.answer unit "/work" plain Node.basename.

(** The mock of the test suite, freshly constructed. *)
Definition fresh : World Mock.MockState := {| pstate := Mock.initial; calls := [] |}.
Definition mockFactory : GitProviderFactory Mock.MockState :=
  Mock.createMockGitProviderFactory "/work" Mock.MockGitProvider.
(** The world after the factory has checked the mock. *)
Definition checked : World Mock.MockState :=
  (mockFactory {| fa_repoPath := None; fa_required := None |} fresh).2.
Definition operations : Operation -> M Mock.MockState GitOperationResponse :=
  GitTools.run mockFactory "/work" Node.basename.
(** The mock after [setError(method)]. *)
Definition failing (method : string) : World Mock.MockState :=
  {| pstate := Mock.setError method Mock.initial; calls := [] |}.
(** simple-git replaced by the mock. *)
Definition mocked (basePath : string) (s : Mock.MockState)
  : Result (GitProvider Mock.MockState) := Ok Mock.MockGitProvider.
Definition production : Operation -> M Mock.MockState GitOperationResponse :=
  GitTools.run (SimpleGit.getGit "/work" mocked) "/work" Node.basename.
Definition force_push : Operation :=
  Op_gitPush None None (Some true) (Some true) None.

(** What a test of the suite looks at: the envelope, and the calls the
    mock recorded for one method. *)
Definition observe (op : Operation) (method : string) (w : World Mock.MockState)
  : option GitOperationResponse * list Call :=
  let '(r, w') := operations op w in
  (match r with Ok env => Some env | Throw _ => None end,
   Mock.getCalls method (pstate w')).

(** The module-level operations, with simple-git replaced by the mock. *)
Definition module_level : Operation -> M Mock.MockState GitOperationResponse :=
  Legacy.run "/work" mocked Node.basename.
End Examples.

(** ** Properties stated about the program *)

(** The handler of a tool accepts the empty argument object exactly when
    the descriptor marks no parameter as required. *)
Definition required_agrees (t : Server.Tool) : bool :=
  match Server.own (Server.name t) Server.toolHandlers with
  | Some h =>
      bool_decide (is_Some (h (JObj [])) <-> Server.required_of t = [])
  | None => false
  end.

Definition required_accepted (t : Server.Tool) : bool :=
  forallb (fun r => existsb (String.eqb r) (Server.accepted t)) (Server.required_of t).


(** The events an operation appended to the log, between the world it
    started in and the world it ended in. *)
Definition logged_during {S} (w w' : World S) : list Event :=
  drop (length (calls w)) (calls w').


Definition cached_flag (cached : option bool) : list string :=
  if truthy_bool cached then ["--cached"] else [].
Definition separated (files : option (list string)) : list string :=
  if has_files files then "--" :: file_list files else [].


(** [gitDiff] is the one operation whose module-level form builds other
    arguments than its form in the operation groups. *)
Definition is_diff (op : Operation) : bool :=
  match op with Op_gitDiff _ _ _ _ _ _ => true | _ => false end.

(** The argument an operation passes to its factory. *)
Definition factory_args (op : Operation) : FactoryArgs :=
  if requires_repository op
  then GitTools.repo (repoPath_of op)
  else GitTools.repo_not_required (repoPath_of op).

(** ** Vocabulary for the properties of the remaining code *)

(** The name under which the mock records a call: the first argument of
    [recordCall] in the method that [Call] stands for. *)
Definition method_name (c : Call) : string :=
  match c with
  | C_checkIsRepo => "checkIsRepo"
  | C_status => "status"
  | C_init => "init"
  | C_clone _ _ => "clone"
  | C_branch _ => "branch"
  | C_checkout _ => "checkout"
  | C_checkoutBranch _ _ => "checkoutBranch"
  | C_merge _ => "merge"
  | C_diff _ => "diff"
  | C_diffSummary _ => "diffSummary"
  | C_add _ => "add"
  | C_reset _ => "reset"
  | C_raw _ => "raw"
  | C_commit _ _ _ => "commit"
  | C_log _ => "log"
  | C_show _ => "show"
  | C_rebase _ => "rebase"
  | C_stash _ => "stash"
  | C_stashList => "stashList"
  | C_getRemotes _ => "getRemotes"
  | C_addRemote _ _ => "addRemote"
  | C_fetch _ _ => "fetch"
  | C_pull _ _ _ => "pull"
  | C_push _ _ _ => "push"
  end.

(** The mock keeps [calls] and [shouldThrow] in object literals, so a
    lookup under the name of a member that every object inherits finds
    that member and not the mock's data; under every other key it finds
    what the mock stored. *)
Definition plain_key (k : string) : bool :=
  negb (existsb (String.eqb k) Server.Object_prototype).

(** The calls of one method in a log, in the order they were made. *)
Definition recorded (method : string) (log : list Event) : list Call :=
  map fst (List.filter (fun e => String.eqb (method_name (fst e)) method) log).

(** The mock's own record agrees with the log of the world. *)
Definition consistent (w : World Mock.MockState) : Prop :=
  forall method, Mock.getCalls method (pstate w) = recorded method (calls w).

(** A computation keeps the mock's record and the log in agreement. *)
Definition preserves {A} (m : M Mock.MockState A) : Prop :=
  forall w, consistent w -> consistent (m w).2.




(** A string parameter as the code sees it: [undefined] and the empty
    string are both "not given". *)
Definition given (o : option string) : option string :=
  match o with
  | Some s => if String.eqb s "" then None else Some s
  | None => None
  end.

Module Mocked.
(** The worlds of the mock used to instantiate hypotheses: the state
    the mock is in after one more primitive. *)
Definition after {A} (p : Prim Mock.MockState A) (s : Mock.MockState) : Mock.MockState :=
  (p s).2.
Definition checked : Mock.MockState := pstate Examples.checked.
End Mocked.

(** * Verification *)

(** ** Small examples on the mock of the test suite *)

Example basename_repo :
  Node.basename "https://github.com/user/repo.git" ".git" = "repo".
Proof. reflexivity. Qed.

Example mock_branch_list :
  (GitTools.gitBranchList Examples.mockFactory None Examples.fresh).1 =
  Ok (ok_data "Found 1 branches"
        (JArr [JObj [("name", JStr "main"); ("current", JBool true);
                     ("commit", JStr "abc123")]])).
Proof. vm_compute. reflexivity. Qed.

(** ** The test suite, replayed on the embedding

    Each example is one test of [__tests__]: the operations configured
    with the mock factory, and what the test expects of the envelope and
    of the recorded calls. *)

Example test_status_clean :
  Examples.observe (Op_gitStatus (Some "/test/repo")) "status" Examples.fresh =
  (Some (ok_data "Working tree clean" (GitTools.StatusData (Mock.mockStatus Mock.initial))),
   [C_status]).
Proof. vm_compute. reflexivity. Qed.

Example test_branch_delete_force :
  Examples.observe (Op_gitBranchDelete "unmerged-feature" (Some true) None) "branch"
    Examples.fresh =
  (Some (ok_msg "Deleted branch 'unmerged-feature'"),
   [C_branch (Some ["-D"; "unmerged-feature"])]).
Proof. vm_compute. reflexivity. Qed.

Example test_diff_two_dot_range :
  Examples.observe (Op_gitDiff None None (Some "abc123") (Some "def456") None None) "diff"
    Examples.fresh =
  (Some (ok_data "Diff for abc123..def456"
           (JObj [("summary", GitTools.DiffData (Mock.mockDiffSummary Mock.initial));
                  ("diff", JStr (Mock.mockDiffOutput Mock.initial))])),
   [C_diff ["abc123..def456"]]).
Proof. vm_compute. reflexivity. Qed.

Example test_diff_specific_files :
  Examples.observe (Op_gitDiff (Some ["file1.ts"; "file2.ts"]) None None None None None)
    "diff" Examples.fresh =
  (Some (ok_data "Diff for 2 file(s)"
           (JObj [("summary", GitTools.DiffData (Mock.mockDiffSummary Mock.initial));
                  ("diff", JStr (Mock.mockDiffOutput Mock.initial))])),
   [C_diff ["--"; "file1.ts"; "file2.ts"]]).
Proof. vm_compute. reflexivity. Qed.

Example test_add_files :
  Examples.observe (Op_gitAdd ["file1.ts"; "file2.ts"] None) "add" Examples.fresh =
  (Some (ok_msg "Staged 2 file(s): file1.ts, file2.ts"), [C_add ["file1.ts"; "file2.ts"]]).
Proof. vm_compute. reflexivity. Qed.

Example test_reset_files :
  Examples.observe (Op_gitReset (Some ["file1.ts"; "file2.ts"]) None None None) "reset"
    Examples.fresh =
  (Some (ok_msg "Unstaged 2 file(s): file1.ts, file2.ts"),
   [C_reset ["HEAD"; "file1.ts"; "file2.ts"]]).
Proof. vm_compute. reflexivity. Qed.

Example test_commit_amend :
  Examples.observe (Op_gitCommit "Amended commit" None (Some true) None) "commit"
    Examples.fresh =
  (Some (ok_data "Committed changes: def456"
           (JObj [("commit", JStr "def456");
                  ("summary", JObj [("changes", JNum 1); ("insertions", JNum 1);
                                    ("deletions", JNum 0)])])),
   [C_commit "Amended commit" None [("--amend", JNull)]]).
Proof. vm_compute. reflexivity. Qed.

Example test_log_limit :
  (Examples.observe (Op_gitLog (Some 5%Z) None None) "log" Examples.fresh).2 =
  [C_log {| lo_maxCount := Some 5%Z; lo_file := None; lo_from := None; lo_to := None |}].
Proof. vm_compute. reflexivity. Qed.

Example test_stash_message_untracked :
  Examples.observe (Op_gitStash (Some "Saving work") (Some true) None) "stash"
    Examples.fresh =
  (Some (ok_msg "Stashed changes: Saving work"),
   [C_stash ["push"; "-u"; "-m"; "Saving work"]]).
Proof. vm_compute. reflexivity. Qed.

Example test_stash_pop_index_2 :
  Examples.observe (Op_gitStashPop (Some 2%Z) None) "stash" Examples.fresh =
  (Some (ok_msg "Applied stash@{2}"), [C_stash ["pop"; "stash@{2}"]]).
Proof. vm_compute. reflexivity. Qed.

Example test_push_force_upstream :
  Examples.observe (Op_gitPush None None (Some true) (Some true) None) "push"
    Examples.fresh =
  (Some (ok_msg "Pushed to origin"), [C_push None None ["--force"; "--set-upstream"]]).
Proof. vm_compute. reflexivity. Qed.

Example test_merge_error :
  Examples.observe (Op_gitMerge "feature" None None) "merge" (Examples.failing "merge") =
  (Some (failure "Failed to merge: Mock error for merge"), [C_merge ["feature"]]).
Proof. vm_compute. reflexivity. Qed.

(** ** The tool catalog (C1) *)

(** C1, as stated, fails: the catalog does not hold 29 descriptors. *)
Lemma tool_catalog_is_not_29 : length Server.tools <> 29.
Proof. vm_compute. discriminate. Qed.

(** C1 (amended): the catalog holds exactly 25 descriptors, one per entry
    of the handler table and in its order, with pairwise distinct names;
    every descriptor names its accepted parameters and the parameters it
    marks required are among them; [git_clone] requires [url],
    [git_commit] requires [message], [git_branch_create] requires
    [branchName]. *)
Theorem tool_catalog :
  length Server.tools = 25
  /\ map Server.name Server.tools = Server.handler_names
  /\ NoDup (map Server.name Server.tools)
  /\ forallb required_accepted Server.tools = true
  /\ forallb required_agrees Server.tools = true
  /\ (Server.required_of <$> Server.find_tool "git_clone") = Some ["url"]
  /\ (Server.required_of <$> Server.find_tool "git_commit") = Some ["message"]
  /\ (Server.required_of <$> Server.find_tool "git_branch_create") = Some ["branchName"].
Proof.
  repeat split; try (vm_compute; reflexivity).
  apply (bool_decide_unpack _). vm_compute. reflexivity.
Qed.

(** ** Symbolic execution of an operation *)

(** Case analysis on the next scrutinee: the outcome of a primitive, of
    the binding of simple-git, or the truth of a parameter. *)
Ltac next_case :=
  match goal with
  | |- context [match ?x with _ => _ end] =>
      lazymatch x with
      | context [match _ with _ => _ end] => fail
      | _ => first [ is_var x; destruct x | destruct x eqn:? ]
      end
  end.

Ltac unfold_methods :=
  unfold Git.checkIsRepo, Git.status, Git.init, Git.clone, Git.branch,
    Git.branch_args, Git.checkout, Git.checkoutBranch, Git.merge, Git.diff,
    Git.diffSummary, Git.add, Git.reset, Git.raw, Git.commit, Git.log, Git.show,
    Git.rebase, Git.stash, Git.stashList, Git.getRemotes, Git.addRemote,
    Git.fetch, Git.pull, Git.push, invoke, try_catch, bind, ret, throw.

Ltac unfold_operations :=
  unfold GitTools.run, GitTools.gitStatus, GitTools.gitInit, GitTools.gitClone,
    GitTools.gitBranchList, GitTools.gitBranchCreate, GitTools.gitBranchDelete,
    GitTools.gitCheckout, GitTools.gitMerge, GitTools.gitDiff, GitTools.gitAdd,
    GitTools.gitReset, GitTools.gitRestore, GitTools.gitCommit, GitTools.gitLog,
    GitTools.gitShow, GitTools.gitRebase, GitTools.gitStash, GitTools.gitStashPop,
    GitTools.gitStashList, GitTools.gitCherryPick, GitTools.gitRemoteList,
    GitTools.gitRemoteAdd, GitTools.gitFetch, GitTools.gitPull, GitTools.gitPush.

Ltac log_tail :=
  cbn [calls pstate]; rewrite <- ?app_assoc; cbn [app];
  first [ reflexivity | symmetry; apply app_nil_r ].

Ltac single_fault :=
  let c := fresh "c" in let m := fresh "m" in let H := fresh "H" in
  intros c m H; cbn [In fault_of] in H;
  repeat match type of H with
         | _ \/ _ => destruct H as [H | H]
         end;
  first [ contradiction | discriminate
        | injection H as <- <-; reflexivity
        | injection H as _ <-; reflexivity ].

(** ** Strings *)



(** ** Every operation answers with an envelope *)

Section AnyFactory.
Context {S : Type}.
Variable getGit : GitProviderFactory S.
Variable cwd : string.
Variable path_basename : string -> string -> string.


(** The faults an operation meets come from its factory or from the
    primitives it invokes on the provider the factory returned; either
    way the envelope is that of its [catch] block. *)
Lemma run_reports_fault_after_factory (op : Operation) (w : World S) :
  match getGit (factory_args op) w with
  | (Throw m, w1) =>
      GitTools.run getGit cwd path_basename op w = (Ok (failure (failed_to op +:+ m)), w1)
  | (Ok git, w1) =>
      exists env w' evs,
        GitTools.run getGit cwd path_basename op w = (Ok env, w')
        /\ calls w' = calls w1 ++ evs
        /\ forall c m, In (c, Some m) evs -> env = failure (failed_to op +:+ m)
  end.
Proof.
  destruct op; cbn [factory_args requires_repository repoPath_of];
    (match goal with
     | |- context [getGit ?a w] => destruct (getGit a w) as [[git|e] w1] eqn:Hg
     end);
    unfold_operations; unfold_methods; rewrite Hg; cbn [pstate calls];
    first
      [ reflexivity
      | repeat next_case;
        eexists _, _, _; (split; [reflexivity|]); (split; [log_tail|]);
        single_fault ].
Qed.

End AnyFactory.

(** ** The operations over the simple-git factory *)

Section ProductionFactory.
Context {S : Type}.
Variable cwd : string.
Variable simpleGit : string -> S -> Result (GitProvider S).
Variable path_basename : string -> string -> string.

Let getGit := SimpleGit.getGit cwd simpleGit.

Ltac unfold_factory :=
  unfold getGit, SimpleGit.getGit, SimpleGit.bind_simpleGit, GitTools.repo,
    GitTools.repo_not_required; cbn [fa_repoPath fa_required default].

(** An operation never throws; it extends the log, and a primitive that
    faulted while it ran determines the envelope. *)
Lemma run_reports_fault (op : Operation) (w : World S) :
  exists env w' evs,
    GitTools.run getGit cwd path_basename op w = (Ok env, w')
    /\ calls w' = calls w ++ evs
    /\ forall c m, In (c, Some m) evs -> env = failure (failed_to op +:+ m).
Proof.
  destruct op; unfold_operations; unfold_factory; unfold_methods;
    repeat next_case;
    eexists _, _, _; (split; [reflexivity|]); (split; [log_tail|]);
    single_fault.
Qed.

(** C4: for every operation and every provider primitive that raises a
    fault while the operation runs, the operation does not rethrow: it
    returns the envelope with [success = false], no [data], and the
    message "Failed to <action>: " followed by the message of the fault. *)
Theorem operation_fault_is_reported (op : Operation) (w w' : World S)
    (r : Result GitOperationResponse) :
  GitTools.run getGit cwd path_basename op w = (r, w') ->
  (exists env, r = Ok env)
  /\ forall c m, In (c, Some m) (logged_during w w') ->
       r = Ok {| success := false; message := failed_to op +:+ m; data := None |}.
Proof.
  intros Hrun.
  destruct (run_reports_fault op w) as (env & w1 & evs & H1 & Hlog & Hfault).
  rewrite H1 in Hrun. injection Hrun as <- <-.
  split; [eauto|].
  intros c m Hin. unfold logged_during in Hin.
  rewrite Hlog, drop_app_length in Hin.
  f_equal. exact (Hfault c m Hin).
Qed.

(** C3 (amended): an operation that requires a repository, on a target
    that is none, returns the failure whose message is the prefix of its
    own [catch] block followed by "Not a git repository: <path-or-cwd>",
    and the repository check is the only primitive invoked. *)
Theorem not_a_repository_is_reported (op : Operation) (w : World S)
    (git : GitProvider S) (s' : S) :
  requires_repository op = true ->
  simpleGit (or_else (repoPath_of op) cwd) (pstate w) = Ok git ->
  prim_checkIsRepo git (pstate w) = (Ok false, s') ->
  GitTools.run getGit cwd path_basename op w =
    (Ok {| success := false;
           message := failed_to op +:+ "Not a git repository: "
                      +:+ or_else (repoPath_of op) cwd;
           data := None |},
     {| pstate := s'; calls := calls w ++ [(C_checkIsRepo, None)] |}).
Proof.
  intros Hreq Hbind Hcheck.
  destruct op; try discriminate Hreq; cbn [repoPath_of] in Hbind |- *;
    unfold_operations; unfold_factory; unfold_methods;
    rewrite Hbind, Hcheck; reflexivity.
Qed.

End ProductionFactory.

(** ** The module-level operations and the dispatcher *)

Ltac unfold_legacy :=
  unfold Legacy.run, Legacy.gitStatus, Legacy.gitInit, Legacy.gitClone,
    Legacy.gitBranchList, Legacy.gitBranchCreate, Legacy.gitBranchDelete,
    Legacy.gitCheckout, Legacy.gitMerge, Legacy.gitDiff, Legacy.gitAdd,
    Legacy.gitReset, Legacy.gitRestore, Legacy.gitCommit, Legacy.gitLog,
    Legacy.gitShow, Legacy.gitRebase, Legacy.gitStash, Legacy.gitStashPop,
    Legacy.gitStashList, Legacy.gitCherryPick, Legacy.gitRemoteList,
    Legacy.gitRemoteAdd, Legacy.gitFetch, Legacy.gitPull, Legacy.gitPush,
    Legacy.unless, Legacy.verifyGitRepo, Legacy.getGit, SimpleGit.bind_simpleGit.

Section ModuleLevel.
Context {S : Type}.
Variable cwd : string.
Variable simpleGit : string -> S -> Result (GitProvider S).
Variable path_basename : string -> string -> string.

(** A module-level operation returns an envelope too; a failing one
    comes from its own [catch] block or from [verifyGitRepo]. *)
Lemma legacy_run_envelope (op : Operation) (w : World S) :
  exists env w',
    Legacy.run cwd simpleGit path_basename op w = (Ok env, w')
    /\ (success env = false ->
        data env = None
        /\ ((exists m, message env = failed_to op +:+ m)
            \/ message env = "Not a git repository: " +:+ or_else (repoPath_of op) cwd
            \/ exists m, message env = "Error verifying repository: " +:+ m)).
Proof.
  destruct op; unfold_legacy; unfold_methods; repeat next_case;
    eexists _, _; (split; [reflexivity|]);
    cbn [success data message ok_msg ok_data failure repoPath_of];
    intros Hf; first
      [ discriminate Hf
      | split; [reflexivity|]; first
          [ left; eexists; reflexivity
          | right; left; reflexivity
          | right; right; eexists; reflexivity ] ].
Qed.

(** On a target that is no repository, a module-level operation other
    than [gitInit] and [gitClone] hands back the envelope of
    [verifyGitRepo] as it is. *)
Lemma legacy_not_a_repository (op : Operation) (w : World S)
    (git : GitProvider S) (s' : S) :
  requires_repository op = true ->
  simpleGit (or_else (repoPath_of op) cwd) (pstate w) = Ok git ->
  prim_checkIsRepo git (pstate w) = (Ok false, s') ->
  Legacy.run cwd simpleGit path_basename op w =
    (Ok (failure ("Not a git repository: " +:+ or_else (repoPath_of op) cwd)),
     {| pstate := s'; calls := calls w ++ [(C_checkIsRepo, None)] |}).
Proof.
  intros Hreq Hbind Hcheck.
  destruct op; try discriminate Hreq; cbn [repoPath_of] in Hbind |- *;
    unfold_legacy; unfold_methods; rewrite Hbind, Hcheck; reflexivity.
Qed.


End ModuleLevel.

(** A fault of the repository check itself: the module-level operation
    relays the envelope of [verifyGitRepo], the operation of the groups
    reports it behind its own prefix. *)
Example check_fault_module_level :
  (Examples.module_level (Op_gitStatus None) (Examples.failing "checkIsRepo")).1 =
  Ok (failure "Error verifying repository: Mock error for checkIsRepo").
Proof. vm_compute. reflexivity. Qed.

Example check_fault_operation_group :
  (Examples.operations (Op_gitStatus None) (Examples.failing "checkIsRepo")).1 =
  Ok (failure "Failed to get status: Mock error for checkIsRepo").
Proof. vm_compute. reflexivity. Qed.

(** ** The failure invariant (C2) *)



(** ** Precondition and primitive faults (C3, C4): examples *)

(** C3, as stated, fails: the message is not exactly "Not a git
    repository: <path>", it carries the prefix of the operation; and the
    repository check, itself a primitive of the provider, is invoked. *)
Lemma not_a_repository_message_is_prefixed :
  exists env w',
    Examples.run (Op_gitBranchList (Some "/tmp/plain")) Examples.nowhere = (Ok env, w')
    /\ success env = false
    /\ message env = "Failed to list branches: Not a git repository: /tmp/plain"
    /\ message env <> "Not a git repository: /tmp/plain"
    /\ calls w' = [(C_checkIsRepo, None)].
Proof.
  eexists _, _. do 3 (split; [reflexivity|]). split; [discriminate|reflexivity].
Qed.

Lemma not_a_repository_is_reported_witness :
  requires_repository (Op_gitStatus None) = true
  /\ Examples.plain (or_else (repoPath_of (Op_gitStatus None)) "/work")
       (pstate Examples.nowhere) = Ok Examples.emptyDirectory
  /\ prim_checkIsRepo Examples.emptyDirectory (pstate Examples.nowhere) = (Ok false, ())
  /\ Examples.run (Op_gitStatus None) Examples.nowhere =
       (Ok (failure "Failed to get status: Not a git repository: /work"),
        {| pstate := (); calls := [(C_checkIsRepo, None)] |}).
Proof.
  do 3 (split; [reflexivity|]).
  apply (not_a_repository_is_reported "/work" Examples.plain Node.basename
           (Op_gitStatus None) Examples.nowhere Examples.emptyDirectory ());
    reflexivity.
Defined.

Lemma operation_fault_is_reported_witness :
  In (C_push None None ["--force"; "--set-upstream"], Some "Mock error for push")
     (logged_during (Examples.failing "push")
        (Examples.production Examples.force_push (Examples.failing "push")).2)
  /\ (Examples.production Examples.force_push (Examples.failing "push")).1 =
       Ok (failure "Failed to push: Mock error for push").
Proof.
  split; [vm_compute; auto|].
  destruct (operation_fault_is_reported "/work" Examples.mocked Node.basename
              Examples.force_push (Examples.failing "push")
              (Examples.production Examples.force_push (Examples.failing "push")).2
              (Examples.production Examples.force_push (Examples.failing "push")).1
              (surjective_pairing _)) as [_ H].
  refine (H (C_push None None ["--force"; "--set-upstream"]) "Mock error for push" _).
  vm_compute. auto.
Defined.


(** ** Argument rules of single operations *)




Section Operations.
Context {S : Type}.
Variable getGit : GitProviderFactory S.
Variable cwd : string.
Variable path_basename : string -> string -> string.



Ltac run_operation :=
  unfold_operations; unfold_methods.



(** When the stage primitive faults, the commit primitive is not invoked. *)
Lemma gitCommit_stops_at_stage_fault (msg : string) (fs : list string) amend
    repoPath (w w1 : World S) (git : GitProvider S) (s2 : S) (e : string) :
  fs <> [] ->
  getGit (GitTools.repo repoPath) w = (Ok git, w1) ->
  prim_add git fs (pstate w1) = (Throw e, s2) ->
  GitTools.gitCommit getGit msg (Some fs) amend repoPath w =
    (Ok (failure ("Failed to commit: " +:+ e)),
     {| pstate := s2; calls := calls w1 ++ [(C_add fs, Some e)] |}).
Proof.
  intros Hfs Hg Ha.
  run_operation. rewrite Hg.
  destruct fs as [|f fs]; [done|].
  change (file_list (Some (f :: fs))) with (f :: fs). cbn [has_files pstate calls].
  rewrite Ha. reflexivity.
Qed.



(** The envelope of [gitBranchList] is a function of the branch summary. *)
Lemma gitBranchList_of_summary repoPath (w w1 : World S) (git : GitProvider S)
    (b : GitBranchSummary) (s1 : S) :
  getGit (GitTools.repo repoPath) w = (Ok git, w1) ->
  prim_branch git (pstate w1) = (Ok b, s1) ->
  GitTools.gitBranchList getGit repoPath w =
    (Ok (ok_data ("Found " +:+ len_str (GitTools.BranchData b) +:+ " branches")
           (JArr (GitTools.BranchData b))),
     {| pstate := s1; calls := calls w1 ++ [(C_branch None, None)] |}).
Proof.
  intros Hg Hb. run_operation. rewrite Hg. cbn [pstate calls]. rewrite Hb. reflexivity.
Qed.

(** C8: two successive calls of [gitBranchList] in which the branch
    primitive returns the same summary yield the same envelope, hence
    the same serialised response. *)
Theorem gitBranchList_deterministic repoPath (w w1 w2 w3 w4 : World S)
    (git git' : GitProvider S) (b : GitBranchSummary) (s1 s3 : S)
    (r1 r2 : Result GitOperationResponse) :
  GitTools.gitBranchList getGit repoPath w = (r1, w2) ->
  getGit (GitTools.repo repoPath) w = (Ok git, w1) ->
  prim_branch git (pstate w1) = (Ok b, s1) ->
  GitTools.gitBranchList getGit repoPath w2 = (r2, w4) ->
  getGit (GitTools.repo repoPath) w2 = (Ok git', w3) ->
  prim_branch git' (pstate w3) = (Ok b, s3) ->
  r1 = r2
  /\ exists env,
      r1 = Ok env
      /\ forall (JSON_stringify : JSON -> option nat -> string),
           Server.text_reply JSON_stringify (env, Some 2) =
           Server.text_reply JSON_stringify
             (ok_data ("Found " +:+ len_str (GitTools.BranchData b) +:+ " branches")
                (JArr (GitTools.BranchData b)), Some 2).
Proof.
  intros H1 Hg1 Hb1 H2 Hg2 Hb2.
  rewrite (gitBranchList_of_summary _ _ _ _ _ _ Hg1 Hb1) in H1.
  rewrite (gitBranchList_of_summary _ _ _ _ _ _ Hg2 Hb2) in H2.
  injection H1 as <- _. injection H2 as <- _.
  split; [reflexivity|]. eexists. split; reflexivity.
Qed.



End Operations.


(** ** The module-level operations against the operation groups *)

Section Bridge.
Context {S : Type}.
Variable cwd : string.
Variable simpleGit : string -> S -> Result (GitProvider S).
Variable path_basename : string -> string -> string.

(** The factory the module-level operations amount to once
    [verifyGitRepo] has passed: simple-git bound to the path. *)
Let bound : GitProviderFactory S :=
  fun args => Legacy.getGit cwd simpleGit (fa_repoPath args).

(** [gitInit] and [gitClone] are their counterparts over that factory. *)
Lemma legacy_unverified (op : Operation) :
  requires_repository op = false ->
  Legacy.run cwd simpleGit path_basename op = GitTools.run bound cwd path_basename op.
Proof. destruct op; try discriminate; reflexivity. Qed.

(** So is every other operation but [gitDiff], from the world that the
    passed check leaves behind. *)
Lemma legacy_verified (op : Operation) (w : World S) (git : GitProvider S) (s1 : S) :
  requires_repository op = true ->
  is_diff op = false ->
  simpleGit (or_else (repoPath_of op) cwd) (pstate w) = Ok git ->
  prim_checkIsRepo git (pstate w) = (Ok true, s1) ->
  Legacy.run cwd simpleGit path_basename op w =
  GitTools.run bound cwd path_basename op
    {| pstate := s1; calls := calls w ++ [(C_checkIsRepo, None)] |}.
Proof.
  intros Hreq Hdiff Hbind Hcheck.
  destruct op; try discriminate Hreq; try discriminate Hdiff;
    cbn [repoPath_of] in Hbind;
    unfold_legacy; unfold_operations; unfold bound, Legacy.getGit,
      SimpleGit.bind_simpleGit, GitTools.repo; cbn [fa_repoPath];
    unfold_methods; rewrite Hbind, Hcheck; reflexivity.
Qed.

End Bridge.

(** ** The argument rules on the mock of the test suite *)






Lemma gitBranchList_deterministic_witness :
  (GitTools.gitBranchList Examples.mockFactory None Examples.fresh).1 =
  (GitTools.gitBranchList Examples.mockFactory None
     (GitTools.gitBranchList Examples.mockFactory None Examples.fresh).2).1.
Proof.
  destruct (gitBranchList_deterministic Examples.mockFactory None
              Examples.fresh Examples.checked
              (GitTools.gitBranchList Examples.mockFactory None Examples.fresh).2
              (Examples.mockFactory (GitTools.repo None)
                 (GitTools.gitBranchList Examples.mockFactory None Examples.fresh).2).2
              (GitTools.gitBranchList Examples.mockFactory None
                 (GitTools.gitBranchList Examples.mockFactory None Examples.fresh).2).2
              Mock.MockGitProvider Mock.MockGitProvider
              (Mock.mockBranches Mock.initial)
              (prim_branch Mock.MockGitProvider (pstate Examples.checked)).2
              (prim_branch Mock.MockGitProvider
                 (pstate (Examples.mockFactory (GitTools.repo None)
                    (GitTools.gitBranchList Examples.mockFactory None Examples.fresh).2).2)).2
              (GitTools.gitBranchList Examples.mockFactory None Examples.fresh).1
              (GitTools.gitBranchList Examples.mockFactory None
                 (GitTools.gitBranchList Examples.mockFactory None Examples.fresh).2).1)
    as (Heq & _);
    [ apply surjective_pairing | reflexivity | vm_compute; reflexivity
    | apply surjective_pairing | reflexivity | vm_compute; reflexivity | ].
  exact Heq.
Defined.



(** * Further properties of the operations, the factories and the mock *)

Ltac exec := unfold_operations; unfold_methods.

Section FurtherOperations.
Context {S : Type}.
Variable getGit : GitProviderFactory S.
Variable cwd : string.
Variable path_basename : string -> string -> string.

(** X1: [gitStatus] reports "Working tree clean" exactly for a clean
    status; the data carries the flag, the provider's [created] files
    as [added], its [not_added] files as [notAdded], every rename as
    "<from> -> <to>", and a detached head as [null]. *)
Theorem gitStatus_reports repoPath (w w1 : World S) (git : GitProvider S)
    (st : GitStatus) (s2 : S) :
  getGit (GitTools.repo repoPath) w = (Ok git, w1) ->
  prim_status git (pstate w1) = (Ok st, s2) ->
  exists d,
    GitTools.gitStatus getGit repoPath w =
      (Ok {| success := true;
             message := if isClean st then "Working tree clean"
                        else "Working tree has changes";
             data := Some d |},
       {| pstate := s2; calls := calls w1 ++ [(C_status, None)] |})
    /\ get "isClean" d = Some (JBool (isClean st))
    /\ get "added" d = Some (JStrs (created st))
    /\ get "notAdded" d = Some (JStrs (not_added st))
    /\ get "renamed" d =
         Some (JStrs (map (fun r => from r +:+ " -> " +:+ to r) (renamed st)))
    /\ get "current" d =
         Some (match current st with Some b => JStr b | None => JNull end).
Proof.
  intros Hg Hs. exec. rewrite Hg. cbn [pstate calls]. rewrite Hs.
  eexists. split; [reflexivity|]. repeat split.
Qed.

(** X2: the data of [gitBranchList] holds one record per name of the
    summary's [all] list, in its order; [current] is true exactly for
    the name equal to the summary's current branch, and [commit] is the
    empty string for a name that the [branches] table does not hold. *)
Theorem gitBranchList_records repoPath (w w1 : World S) (git : GitProvider S)
    (b : GitBranchSummary) (s1 : S) :
  getGit (GitTools.repo repoPath) w = (Ok git, w1) ->
  prim_branch git (pstate w1) = (Ok b, s1) ->
  exists records,
    (GitTools.gitBranchList getGit repoPath w).1 =
      Ok {| success := true;
            message := "Found " +:+ pretty (length (bs_all b)) +:+ " branches";
            data := Some (JArr records) |}
    /\ length records = length (bs_all b)
    /\ forall i name,
         bs_all b !! i = Some name ->
         records !! i =
           Some (JObj [("name", JStr name);
                       ("current", JBool (bool_decide (name = bs_current b)));
                       ("commit",
                        JStr match bs_branches b !! name with
                             | Some info => bi_commit info
                             | None => ""
                             end)]).
Proof.
  intros Hg Hb. exec. rewrite Hg. cbn [pstate calls]. rewrite Hb.
  exists (GitTools.BranchData b). unfold GitTools.BranchData, len_str.
  rewrite !length_map. split; [reflexivity|]. split; [reflexivity|].
  intros i name Hi. rewrite list_lookup_fmap, Hi.
  assert (Hc : String.eqb name (bs_current b) = bool_decide (name = bs_current b)).
  { destruct (String.eqb_spec name (bs_current b)) as [E|E].
    - now rewrite bool_decide_eq_true_2.
    - now rewrite bool_decide_eq_false_2. }
  assert (Ho : or_else (bi_commit <$> bs_branches b !! name) "" =
               match bs_branches b !! name with
               | Some info => bi_commit info
               | None => ""
               end).
  { destruct (bs_branches b !! name) as [info|]; [|reflexivity].
    cbn [fmap option_fmap option_map]. unfold or_else, truthy_str.
    destruct (String.eqb_spec (bi_commit info) "") as [E|E]; [now rewrite E|reflexivity]. }
  cbn [fmap option_fmap option_map]. rewrite Hc, Ho. reflexivity.
Qed.

(** X3: [gitBranchDelete] passes "-D" exactly when [force] is true and
    "-d" otherwise, followed by the branch name, in a single call of
    the branch primitive. *)
Theorem gitBranchDelete_flag (branchName : string) force repoPath (w w1 : World S)
    (git : GitProvider S) (r : Result unit) (s2 : S) :
  getGit (GitTools.repo repoPath) w = (Ok git, w1) ->
  prim_branch_args git
    [match force with Some true => "-D" | _ => "-d" end; branchName] (pstate w1) = (r, s2) ->
  GitTools.gitBranchDelete getGit branchName force repoPath w =
    (Ok match r with
        | Ok _ => ok_msg ("Deleted branch '" +:+ branchName +:+ "'")
        | Throw e => failure ("Failed to delete branch: " +:+ e)
        end,
     {| pstate := s2;
        calls := calls w1 ++
          [(C_branch (Some [match force with Some true => "-D" | _ => "-d" end; branchName]),
            fault_of r)] |}).
Proof.
  intros Hg Hp. exec. rewrite Hg. cbn [pstate calls].
  destruct force as [[|]|]; cbn [truthy_bool] in *; rewrite Hp; destruct r; reflexivity.
Qed.

(** X4: [gitCheckout] with [createBranch] creates the branch from
    "HEAD" with the checkoutBranch primitive and never calls checkout;
    without it, it calls checkout on the ref and never checkoutBranch. *)
Theorem gitCheckout_primitive (ref : string) createBranch repoPath (w w1 : World S)
    (git : GitProvider S) (r : Result unit) (s2 : S) :
  getGit (GitTools.repo repoPath) w = (Ok git, w1) ->
  match createBranch with
  | Some true => prim_checkoutBranch git ref "HEAD" (pstate w1)
  | _ => prim_checkout git ref (pstate w1)
  end = (r, s2) ->
  GitTools.gitCheckout getGit ref createBranch repoPath w =
    (Ok match r with
        | Ok _ =>
            ok_msg match createBranch with
                   | Some true => "Created and switched to branch '" +:+ ref +:+ "'"
                   | _ => "Switched to '" +:+ ref +:+ "'"
                   end
        | Throw e => failure ("Failed to checkout: " +:+ e)
        end,
     {| pstate := s2;
        calls := calls w1 ++
          [(match createBranch with
            | Some true => C_checkoutBranch ref "HEAD"
            | _ => C_checkout ref
            end, fault_of r)] |}).
Proof.
  intros Hg Hp. exec. rewrite Hg. cbn [pstate calls].
  destruct createBranch as [[|]|]; cbn [truthy_bool] in *; rewrite Hp; destruct r; reflexivity.
Qed.

(** X5: [gitMerge] passes "--no-ff" before the branch exactly when
    [noFastForward] is true; whatever the merge primitive returns,
    conflicts included, is reported as a success with the conflict
    list in the data. *)
Theorem gitMerge_arguments (branch : string) noFastForward repoPath (w w1 : World S)
    (git : GitProvider S) (mr : GitMergeResult) (s2 : S) :
  getGit (GitTools.repo repoPath) w = (Ok git, w1) ->
  prim_merge git
    match noFastForward with Some true => ["--no-ff"; branch] | _ => [branch] end
    (pstate w1) = (Ok mr, s2) ->
  exists d,
    GitTools.gitMerge getGit branch noFastForward repoPath w =
      (Ok {| success := true;
             message := "Merged branch '" +:+ branch +:+ "'";
             data := Some d |},
       {| pstate := s2;
          calls := calls w1 ++
            [(C_merge match noFastForward with
                      | Some true => ["--no-ff"; branch]
                      | _ => [branch]
                      end, None)] |})
    /\ get "conflicts" d = Some (JStrs (conflicts mr))
    /\ get "merges" d = Some (JStrs (merges mr))
    /\ get "result" d = Some (JStr (result mr)).
Proof.
  intros Hg Hp. exec. rewrite Hg. cbn [pstate calls].
  destruct noFastForward as [[|]|]; cbn [truthy_bool app] in *; rewrite Hp;
    eexists; repeat split.
Qed.

Lemma truthy_given (o : option string) :
  truthy_str o = match given o with Some _ => true | None => false end.
Proof. destruct o as [x|]; [|reflexivity]. cbn. now destruct (String.eqb x ""). Qed.

Lemma str_given (o : option string) (x : string) : given o = Some x -> str o = x /\ o = Some x.
Proof.
  destruct o as [y|]; [|discriminate]. cbn. destruct (String.eqb y ""); [discriminate|].
  now intros [= ->].
Qed.

Lemma or_else_given (o : option string) (d : string) :
  or_else o d = default d (given o).
Proof.
  unfold or_else. rewrite truthy_given. destruct (given o) as [x|] eqn:E; [|reflexivity].
  apply str_given in E as [_ ->]. reflexivity.
Qed.

(** X6: with exactly one of [fromCommit] and [toCommit] given,
    [gitDiff] passes that ref alone between [--cached] and the files,
    whatever [useThreeDotRange] says, and the message tells which of
    the two it was. *)
Theorem gitDiff_single_ref files cached fromCommit toCommit three repoPath
    (ref : string) (w w1 : World S) (git : GitProvider S)
    (d : string) (s2 s3 : S) (ds : GitDiffSummary) :
  (given fromCommit = Some ref /\ given toCommit = None)
  \/ (given fromCommit = None /\ given toCommit = Some ref) ->
  getGit (GitTools.repo repoPath) w = (Ok git, w1) ->
  prim_diff git (cached_flag cached ++ [ref] ++ separated files) (pstate w1) = (Ok d, s2) ->
  prim_diffSummary git
    (List.filter GitTools.not_separator (cached_flag cached ++ [ref] ++ separated files))
    s2 = (Ok ds, s3) ->
  GitTools.gitDiff getGit files cached fromCommit toCommit three repoPath w =
    (Ok {| success := true;
           message := match given fromCommit with
                      | Some _ => "Diff from " +:+ ref +:+ " to working tree"
                      | None => "Diff to " +:+ ref
                      end;
           data := Some (JObj [("summary", GitTools.DiffData ds); ("diff", JStr d)]) |},
     {| pstate := s3;
        calls := calls w1 ++
          [(C_diff (cached_flag cached ++ [ref] ++ separated files), None);
           (C_diffSummary
              (List.filter GitTools.not_separator
                 (cached_flag cached ++ [ref] ++ separated files)), None)] |}).
Proof.
  intros Hone Hg Hd Hs. exec. rewrite Hg.
  assert (Hargs : GitTools.build_diffArgs files cached fromCommit toCommit three =
                  cached_flag cached ++ [ref] ++ separated files).
  { unfold GitTools.build_diffArgs, cached_flag, separated. rewrite !truthy_given.
    destruct Hone as [[Hf Ht]|[Hf Ht]]; rewrite Hf, Ht; cbn [orb andb];
      [apply str_given in Hf as [-> _] | apply str_given in Ht as [-> _]];
      destruct (truthy_bool cached), (has_files files); cbn [app];
      rewrite <- ?app_assoc; reflexivity. }
  rewrite Hargs. cbn [pstate calls]. rewrite Hd. cbn [pstate calls]. rewrite Hs.
  unfold GitTools.diff_message. rewrite !truthy_given.
  destruct Hone as [[Hf Ht]|[Hf Ht]]; rewrite Hf, Ht; cbn [andb];
    [apply str_given in Hf as [-> _] | apply str_given in Ht as [-> _]];
    rewrite <- app_assoc; reflexivity.
Qed.

(** X7: with neither commit given, [gitDiff] passes [--cached] if
    asked and then "--" and the files if there are any; the message is
    "Diff for staged changes" when [cached], also when files are named,
    and otherwise counts the files or says "all"; an empty files list
    counts as none. *)
Theorem gitDiff_working_tree files cached fromCommit toCommit three repoPath
    (w w1 : World S) (git : GitProvider S) (d : string) (s2 s3 : S) (ds : GitDiffSummary) :
  given fromCommit = None -> given toCommit = None ->
  getGit (GitTools.repo repoPath) w = (Ok git, w1) ->
  prim_diff git (cached_flag cached ++ separated files) (pstate w1) = (Ok d, s2) ->
  prim_diffSummary git
    (List.filter GitTools.not_separator (cached_flag cached ++ separated files))
    s2 = (Ok ds, s3) ->
  GitTools.gitDiff getGit files cached fromCommit toCommit three repoPath w =
    (Ok {| success := true;
           message := match cached with
                      | Some true => "Diff for staged changes"
                      | _ => "Diff for "
                             +:+ match files with
                                 | Some (f :: fs) => pretty (length (f :: fs))
                                 | _ => "all"
                                 end +:+ " file(s)"
                      end;
           data := Some (JObj [("summary", GitTools.DiffData ds); ("diff", JStr d)]) |},
     {| pstate := s3;
        calls := calls w1 ++
          [(C_diff (cached_flag cached ++ separated files), None);
           (C_diffSummary
              (List.filter GitTools.not_separator (cached_flag cached ++ separated files)),
            None)] |}).
Proof.
  intros Hf Ht Hg Hd Hs. exec. rewrite Hg.
  assert (Hargs : GitTools.build_diffArgs files cached fromCommit toCommit three =
                  cached_flag cached ++ separated files).
  { unfold GitTools.build_diffArgs, cached_flag, separated. rewrite !truthy_given, Hf, Ht.
    cbn [orb]. destruct (truthy_bool cached), (has_files files); reflexivity. }
  rewrite Hargs. cbn [pstate calls]. rewrite Hd. cbn [pstate calls]. rewrite Hs.
  unfold GitTools.diff_message. rewrite !truthy_given, Hf, Ht. cbn [andb].
  rewrite <- app_assoc.
  destruct cached as [[|]|], files as [[|f fs]|]; reflexivity.
Qed.

(** X8: when the diff primitive faults, [gitDiff] does not ask for the
    summary; when the summary faults after a successful diff, the diff
    text is dropped. Both times the answer is "Failed to get diff: "
    with the fault. *)
Theorem gitDiff_faults files cached fromCommit toCommit three repoPath
    (w w1 : World S) (git : GitProvider S) (rd : Result string) (s2 s3 : S) (e : string) :
  getGit (GitTools.repo repoPath) w = (Ok git, w1) ->
  prim_diff git (GitTools.build_diffArgs files cached fromCommit toCommit three)
    (pstate w1) = (rd, s2) ->
  (rd = Throw e ->
   GitTools.gitDiff getGit files cached fromCommit toCommit three repoPath w =
     (Ok (failure ("Failed to get diff: " +:+ e)),
      {| pstate := s2;
         calls := calls w1 ++
           [(C_diff (GitTools.build_diffArgs files cached fromCommit toCommit three),
             Some e)] |}))
  /\ (forall d, rd = Ok d ->
      prim_diffSummary git
        (List.filter GitTools.not_separator
           (GitTools.build_diffArgs files cached fromCommit toCommit three)) s2
        = (Throw e, s3) ->
      GitTools.gitDiff getGit files cached fromCommit toCommit three repoPath w =
        (Ok (failure ("Failed to get diff: " +:+ e)),
         {| pstate := s3;
            calls := calls w1 ++
              [(C_diff (GitTools.build_diffArgs files cached fromCommit toCommit three),
                None);
               (C_diffSummary
                  (List.filter GitTools.not_separator
                     (GitTools.build_diffArgs files cached fromCommit toCommit three)),
                Some e)] |})).
Proof.
  intros Hg Hd. split.
  - intros ->. exec. rewrite Hg. cbn [pstate calls]. rewrite Hd. reflexivity.
  - intros d -> Hs. exec. rewrite Hg. cbn [pstate calls]. rewrite Hd.
    cbn [pstate calls]. rewrite Hs. rewrite <- app_assoc. reflexivity.
Qed.

(** X9: [gitReset] with a non-empty files list unstages: the reset
    primitive receives the commit, or "HEAD" when none is given,
    followed by the files, and [mode] plays no part. *)
Theorem gitReset_unstages (f : string) (fs : list string) mode commit repoPath
    (w w1 : World S) (git : GitProvider S) (r : Result unit) (s2 : S) :
  getGit (GitTools.repo repoPath) w = (Ok git, w1) ->
  prim_reset git (default "HEAD" (given commit) :: f :: fs) (pstate w1) = (r, s2) ->
  GitTools.gitReset getGit (Some (f :: fs)) mode commit repoPath w =
    (Ok match r with
        | Ok _ => ok_msg ("Unstaged " +:+ pretty (length (f :: fs)) +:+ " file(s): "
                          +:+ join ", " (f :: fs))
        | Throw e => failure ("Failed to reset: " +:+ e)
        end,
     {| pstate := s2;
        calls := calls w1 ++
          [(C_reset (default "HEAD" (given commit) :: f :: fs), fault_of r)] |}).
Proof.
  intros Hg Hp. exec. rewrite Hg. cbn [has_files pstate calls].
  change (file_list (Some (f :: fs))) with (f :: fs).
  rewrite or_else_given, Hp. destruct r; reflexivity.
Qed.

(** X10: [gitReset] without files, or with an empty files list, resets
    the branch: the reset primitive receives "--<mode>", "mixed" when no
    mode is given, and the commit, "HEAD" when none is given. *)
Theorem gitReset_resets files mode commit repoPath
    (w w1 : World S) (git : GitProvider S) (r : Result unit) (s2 : S) :
  files = None \/ files = Some [] ->
  getGit (GitTools.repo repoPath) w = (Ok git, w1) ->
  prim_reset git
    ["--" +:+ match mode with
              | Some soft => "soft" | Some hard => "hard" | _ => "mixed"
              end;
     default "HEAD" (given commit)] (pstate w1) = (r, s2) ->
  GitTools.gitReset getGit files mode commit repoPath w =
    (Ok match r with
        | Ok _ =>
            ok_msg ("Reset to " +:+ default "HEAD" (given commit) +:+ " ("
                    +:+ match mode with
                        | Some soft => "soft" | Some hard => "hard" | _ => "mixed"
                        end +:+ " mode)")
        | Throw e => failure ("Failed to reset: " +:+ e)
        end,
     {| pstate := s2;
        calls := calls w1 ++
          [(C_reset ["--" +:+ match mode with
                              | Some soft => "soft" | Some hard => "hard" | _ => "mixed"
                              end;
                     default "HEAD" (given commit)], fault_of r)] |}).
Proof.
  intros Hfiles Hg Hp. exec. rewrite Hg.
  assert (Hno : has_files files = false) by (destruct Hfiles as [->| ->]; reflexivity).
  rewrite Hno. cbn [pstate calls]. rewrite or_else_given.
  assert (Hm : mode_str (default mixed mode) =
               match mode with Some soft => "soft" | Some hard => "hard" | _ => "mixed" end)
    by (destruct mode as [[| |]|]; reflexivity).
  rewrite Hm, Hp. destruct r; reflexivity.
Qed.

(** X11: [gitCommit] without files, or with an empty files list, stages
    nothing: the commit primitive is the only call, its [files]
    argument is left undefined, and its options hold the key
    "--amend" exactly when [amend] is true. *)
Theorem gitCommit_without_files (msg : string) files amend repoPath
    (w w1 : World S) (git : GitProvider S) (rc : Result GitCommitResult) (s2 : S) :
  files = None \/ files = Some [] ->
  getGit (GitTools.repo repoPath) w = (Ok git, w1) ->
  prim_commit git msg None
    match amend with Some true => [("--amend", JNull)] | _ => [] end
    (pstate w1) = (rc, s2) ->
  exists env,
    GitTools.gitCommit getGit msg files amend repoPath w =
      (Ok env,
       {| pstate := s2;
          calls := calls w1 ++
            [(C_commit msg None
                match amend with Some true => [("--amend", JNull)] | _ => [] end,
              fault_of rc)] |})
    /\ match rc with
       | Ok cr => success env = true
                  /\ message env = "Committed changes: " +:+ commit cr
       | Throw e => env = failure ("Failed to commit: " +:+ e)
       end.
Proof.
  intros Hfiles Hg Hp. exec. rewrite Hg.
  assert (Hno : has_files files = false) by (destruct Hfiles as [->| ->]; reflexivity).
  rewrite Hno. cbn [pstate calls].
  assert (Ho : GitTools.commit_options amend =
               match amend with Some true => [("--amend", JNull)] | _ => [] end)
    by (destruct amend as [[|]|]; reflexivity).
  rewrite Ho, Hp. destruct rc; eexists; (split; [reflexivity|]); [split|]; reflexivity.
Qed.

(** X12: [gitShow] shows "HEAD" when no ref, or an empty ref, is
    given, and the given ref otherwise; the text of the show primitive
    comes back as the data. *)
Theorem gitShow_default_ref ref repoPath (w w1 : World S) (git : GitProvider S)
    (r : Result string) (s2 : S) :
  getGit (GitTools.repo repoPath) w = (Ok git, w1) ->
  prim_show git [default "HEAD" (given ref)] (pstate w1) = (r, s2) ->
  GitTools.gitShow getGit ref repoPath w =
    (Ok match r with
        | Ok text => ok_data ("Details for " +:+ default "HEAD" (given ref)) (JStr text)
        | Throw e => failure ("Failed to show commit: " +:+ e)
        end,
     {| pstate := s2;
        calls := calls w1 ++ [(C_show [default "HEAD" (given ref)], fault_of r)] |}).
Proof.
  intros Hg Hp. exec. rewrite Hg. cbn [pstate calls].
  rewrite or_else_given, Hp. destruct r; reflexivity.
Qed.

(** X13: the arguments of [gitStash] come in a fixed order: "push",
    then "-u" exactly when [includeUntracked] is true, then "-m" and
    the message exactly when a non-empty message is given; the success
    message repeats the stash message when there is one. *)
Theorem gitStash_arguments message includeUntracked repoPath (w w1 : World S)
    (git : GitProvider S) (r : Result unit) (s2 : S) :
  getGit (GitTools.repo repoPath) w = (Ok git, w1) ->
  prim_stash git
    (["push"]
       ++ match includeUntracked with Some true => ["-u"] | _ => [] end
       ++ match given message with Some m => ["-m"; m] | None => [] end)
    (pstate w1) = (r, s2) ->
  GitTools.gitStash getGit message includeUntracked repoPath w =
    (Ok match r with
        | Ok _ => ok_msg match given message with
                         | Some m => "Stashed changes: " +:+ m
                         | None => "Stashed changes"
                         end
        | Throw e => failure ("Failed to stash: " +:+ e)
        end,
     {| pstate := s2;
        calls := calls w1 ++
          [(C_stash
              (["push"]
                 ++ match includeUntracked with Some true => ["-u"] | _ => [] end
                 ++ match given message with Some m => ["-m"; m] | None => [] end),
            fault_of r)] |}).
Proof.
  intros Hg Hp. exec. rewrite Hg. cbn [pstate calls].
  assert (Ho : GitTools.stash_push_options message includeUntracked =
               ["push"]
                 ++ match includeUntracked with Some true => ["-u"] | _ => [] end
                 ++ match given message with Some m => ["-m"; m] | None => [] end).
  { unfold GitTools.stash_push_options. rewrite truthy_given.
    destruct (given message) as [m|] eqn:E;
      [apply str_given in E as [-> _]|];
      destruct includeUntracked as [[|]|]; reflexivity. }
  rewrite Ho, Hp. rewrite truthy_given.
  destruct (given message) as [m|] eqn:E; [apply str_given in E as [-> _]|];
    destruct r; reflexivity.
Qed.

(** X14: [gitFetch] has three call shapes. Without a remote it fetches
    everything, also when a branch is named: the branch is ignored.
    With a remote it passes the remote, and the branch when one is
    given. The message follows the same cases. *)
Theorem gitFetch_shapes remote branch repoPath (w w1 : World S) (git : GitProvider S)
    (r : Result unit) (s2 : S) :
  getGit (GitTools.repo repoPath) w = (Ok git, w1) ->
  prim_fetch git (given remote)
    match given remote with Some _ => given branch | None => None end
    (pstate w1) = (r, s2) ->
  GitTools.gitFetch getGit remote branch repoPath w =
    (Ok match r with
        | Ok _ =>
            ok_msg match given remote with
                   | Some rm =>
                       "Fetched from '" +:+ rm +:+ "'"
                       +:+ match given branch with
                           | Some b => " (" +:+ b +:+ ")"
                           | None => ""
                           end
                   | None => "Fetched from all remotes"
                   end
        | Throw e => failure ("Failed to fetch: " +:+ e)
        end,
     {| pstate := s2;
        calls := calls w1 ++
          [(C_fetch (given remote)
              match given remote with Some _ => given branch | None => None end,
            fault_of r)] |}).
Proof.
  intros Hg Hp. exec. rewrite Hg. cbn [pstate calls]. rewrite !truthy_given.
  destruct (given remote) as [rm|] eqn:Er; [apply str_given in Er as [Hrm ->]|];
    (destruct (given branch) as [b|] eqn:Eb; [apply str_given in Eb as [Hb ->]|]);
    cbn [andb str default] in *; rewrite Hp; destruct r; reflexivity.
Qed.

(** X15: [gitPull] hands [remote] and [branch] to the pull primitive
    as they came, absent ones included, with the option "--rebase"
    exactly when [rebase] is true; the message names "origin" when no
    remote is given, and appends "/<branch>" when a branch is given. *)
Theorem gitPull_arguments remote branch rebase repoPath (w w1 : World S)
    (git : GitProvider S) (r : Result unit) (s2 : S) :
  getGit (GitTools.repo repoPath) w = (Ok git, w1) ->
  prim_pull git remote branch
    match rebase with Some true => [("--rebase", JNull)] | _ => [] end
    (pstate w1) = (r, s2) ->
  GitTools.gitPull getGit remote branch rebase repoPath w =
    (Ok match r with
        | Ok _ =>
            ok_msg ("Pulled from " +:+ default "origin" (given remote)
                    +:+ match given branch with Some b => "/" +:+ b | None => "" end)
        | Throw e => failure ("Failed to pull: " +:+ e)
        end,
     {| pstate := s2;
        calls := calls w1 ++
          [(C_pull remote branch
              match rebase with Some true => [("--rebase", JNull)] | _ => [] end,
            fault_of r)] |}).
Proof.
  intros Hg Hp. exec. rewrite Hg. cbn [pstate calls].
  assert (Ho : GitTools.pull_options rebase =
               match rebase with Some true => [("--rebase", JNull)] | _ => [] end)
    by (destruct rebase as [[|]|]; reflexivity).
  rewrite Ho, Hp. unfold GitTools.remote_target. rewrite or_else_given, truthy_given.
  destruct (given branch) as [b|] eqn:Eb; [apply str_given in Eb as [-> _]|];
    destruct r; reflexivity.
Qed.

(** X16: the options of [gitPush] are "--force" exactly when [force]
    is true followed by "--set-upstream" exactly when [setUpstream] is
    true, in that order; [remote] and [branch] reach the push primitive
    as they came, and the message names "origin" when no remote is
    given. *)
Theorem gitPush_arguments remote branch force setUpstream repoPath (w w1 : World S)
    (git : GitProvider S) (r : Result unit) (s2 : S) :
  getGit (GitTools.repo repoPath) w = (Ok git, w1) ->
  prim_push git remote branch
    (match force with Some true => ["--force"] | _ => [] end
       ++ match setUpstream with Some true => ["--set-upstream"] | _ => [] end)
    (pstate w1) = (r, s2) ->
  GitTools.gitPush getGit remote branch force setUpstream repoPath w =
    (Ok match r with
        | Ok _ =>
            ok_msg ("Pushed to " +:+ default "origin" (given remote)
                    +:+ match given branch with Some b => "/" +:+ b | None => "" end)
        | Throw e => failure ("Failed to push: " +:+ e)
        end,
     {| pstate := s2;
        calls := calls w1 ++
          [(C_push remote branch
              (match force with Some true => ["--force"] | _ => [] end
                 ++ match setUpstream with Some true => ["--set-upstream"] | _ => [] end),
            fault_of r)] |}).
Proof.
  intros Hg Hp. exec. rewrite Hg. cbn [pstate calls].
  assert (Ho : GitTools.push_options force setUpstream =
               match force with Some true => ["--force"] | _ => [] end
                 ++ match setUpstream with Some true => ["--set-upstream"] | _ => [] end)
    by (destruct force as [[|]|], setUpstream as [[|]|]; reflexivity).
  rewrite Ho, Hp. unfold GitTools.remote_target. rewrite or_else_given, truthy_given.
  destruct (given branch) as [b|] eqn:Eb; [apply str_given in Eb as [-> _]|];
    destruct r; reflexivity.
Qed.

(** X17: [gitRemoteList] always asks for the verbose listing and
    answers with one record per remote, in the provider's order,
    holding its name and its fetch and push urls. *)
Theorem gitRemoteList_records repoPath (w w1 : World S) (git : GitProvider S)
    (remotes : list GitRemote) (s2 : S) :
  getGit (GitTools.repo repoPath) w = (Ok git, w1) ->
  prim_getRemotes git true (pstate w1) = (Ok remotes, s2) ->
  exists records,
    GitTools.gitRemoteList getGit repoPath w =
      (Ok {| success := true;
             message := "Found " +:+ pretty (length remotes) +:+ " remote(s)";
             data := Some (JArr records) |},
       {| pstate := s2; calls := calls w1 ++ [(C_getRemotes true, None)] |})
    /\ length records = length remotes
    /\ forall i remote,
         remotes !! i = Some remote ->
         records !! i =
           Some (JObj [("name", JStr (r_name remote));
                       ("refs", JObj [("fetch", JStr (r_fetch (r_refs remote)));
                                      ("push", JStr (r_push (r_refs remote)))])]).
Proof.
  intros Hg Hp. exec. rewrite Hg. cbn [pstate calls]. rewrite Hp.
  exists (GitTools.RemoteData remotes). unfold GitTools.RemoteData, len_str.
  rewrite !length_map. split; [reflexivity|]. split; [reflexivity|].
  intros i remote Hi. rewrite list_lookup_fmap, Hi. cbn [fmap option_fmap option_map].
  assert (Hid : forall x, or_else (Some x) "" = x).
  { intros x. unfold or_else, truthy_str.
    destruct (String.eqb_spec x "") as [->|]; reflexivity. }
  rewrite !Hid. reflexivity.
Qed.

(** X18: [gitClone] clones into [targetPath] when it is given and not
    empty, without consulting the url; an empty [targetPath] counts as
    absent, and the target is derived from the url. *)
Theorem gitClone_target (url : string) targetPath repoPath (w w1 : World S)
    (git : GitProvider S) (r : Result unit) (s2 : S) :
  getGit (GitTools.repo_not_required repoPath) w = (Ok git, w1) ->
  prim_clone git url (default (path_basename url ".git") (given targetPath))
    (pstate w1) = (r, s2) ->
  GitTools.gitClone getGit path_basename url targetPath repoPath w =
    (Ok match r with
        | Ok _ =>
            ok_msg ("Cloned repository from " +:+ url +:+ " to "
                    +:+ default (path_basename url ".git") (given targetPath))
        | Throw e => failure ("Failed to clone repository: " +:+ e)
        end,
     {| pstate := s2;
        calls := calls w1 ++
          [(C_clone url (default (path_basename url ".git") (given targetPath)),
            fault_of r)] |}).
Proof.
  intros Hg Hp. exec. rewrite Hg. cbn [pstate calls].
  assert (Ht : (if truthy_str targetPath then default "" targetPath
                else path_basename url ".git") =
               default (path_basename url ".git") (given targetPath)).
  { rewrite truthy_given. destruct (given targetPath) as [t|] eqn:E; [|reflexivity].
    apply str_given in E as [_ ->]. reflexivity. }
  rewrite Ht, Hp. destruct r; reflexivity.
Qed.

End FurtherOperations.

(** ** The operations over the simple-git factory, as a whole *)

Section FurtherProduction.
Context {S : Type}.
Variable cwd : string.
Variable simpleGit : string -> S -> Result (GitProvider S).
Variable path_basename : string -> string -> string.

Let getGit := SimpleGit.getGit cwd simpleGit.
Let run := GitTools.run getGit cwd path_basename.

Ltac exec_production :=
  unfold run, getGit; unfold_operations;
  unfold SimpleGit.getGit, SimpleGit.bind_simpleGit, GitTools.repo,
    GitTools.repo_not_required; cbn [fa_repoPath fa_required default from_option id];
  unfold_methods.

(** X19: [gitInit] binds simple-git to [repoPath], or to the working
    directory when the path is absent or empty, and invokes the init
    primitive alone, without any repository check; the message names
    the directory it bound. *)
Theorem gitInit_initialises repoPath (w : World S) (git : GitProvider S)
    (r : Result unit) (s2 : S) :
  simpleGit (default cwd (given repoPath)) (pstate w) = Ok git ->
  prim_init git (pstate w) = (r, s2) ->
  run (Op_gitInit repoPath) w =
    (Ok match r with
        | Ok _ => ok_msg ("Initialized empty Git repository in "
                          +:+ default cwd (given repoPath))
        | Throw e => failure ("Failed to initialize repository: " +:+ e)
        end,
     {| pstate := s2; calls := calls w ++ [(C_init, fault_of r)] |}).
Proof.
  intros Hb Hp. exec_production. rewrite !or_else_given, Hb. cbn [pstate calls].
  rewrite Hp. destruct r; reflexivity.
Qed.

(** X20: every operation but [gitInit] and [gitClone] invokes the
    repository check first and once, and invokes nothing else unless
    the check answered true; [gitInit] and [gitClone] never invoke it;
    and when simple-git cannot be bound, no primitive is invoked. *)
Theorem repository_check_comes_first (op : Operation) (w : World S) :
  match simpleGit (default cwd (given (repoPath_of op))) (pstate w) with
  | Throw m =>
      run op w = (Ok (failure (failed_to op +:+ m)), w)
  | Ok git =>
      if requires_repository op then
        exists rest,
          logged_during w (run op w).2 =
            (C_checkIsRepo, fault_of (prim_checkIsRepo git (pstate w)).1) :: rest
          /\ Forall (fun ev => fst ev <> C_checkIsRepo) rest
          /\ ((prim_checkIsRepo git (pstate w)).1 <> Ok true -> rest = [])
      else
        Forall (fun ev => fst ev <> C_checkIsRepo) (logged_during w (run op w).2)
  end.
Proof.
  destruct op; cbn [repoPath_of requires_repository];
    (destruct (simpleGit _ (pstate w)) as [git|m] eqn:Hb);
    exec_production; rewrite ?or_else_given, Hb; try reflexivity;
    unfold logged_during; cbn [pstate calls];
    try (destruct (prim_checkIsRepo git (pstate w)) as [[[|]|e] s1] eqn:Hc; cbn [fst snd negb]);
    repeat next_case; cbn [snd calls pstate];
    rewrite <- ?app_assoc; cbn [app]; rewrite drop_app_length;
    first
      [ eexists; split; [reflexivity|]; split;
        [ repeat constructor; discriminate
        | intros Hne; first [ reflexivity | now contradict Hne ] ]
      | repeat constructor; discriminate ].
Qed.

(** X21: an operation invokes at most three primitives, the check
    included, and a primitive that faults is the last one invoked:
    nothing is retried and nothing runs after a fault. *)
Theorem fault_ends_the_operation (op : Operation) (w : World S) :
  length (logged_during w (run op w).2) <= 3
  /\ forall i c m,
       logged_during w (run op w).2 !! i = Some (c, Some m) ->
       Datatypes.S i = length (logged_during w (run op w).2).
Proof.
  destruct op; exec_production; unfold logged_during;
    repeat next_case; cbn [snd calls pstate];
    rewrite <- ?app_assoc; cbn [app];
    rewrite ?drop_app_length, ?drop_all;
    (split; [cbn [length]; lia|]);
    intros i c m Hi;
    repeat (destruct i as [|i]; cbn in Hi; try discriminate Hi; try reflexivity).
Qed.


End FurtherProduction.

(** ** The module-level operations and the dispatcher, further *)

Section FurtherModuleLevel.
Context {S : Type}.
Variable cwd : string.
Variable simpleGit : string -> S -> Result (GitProvider S).
Variable path_basename : string -> string -> string.

(** X23: [verifyGitRepo] never throws. It answers [null] exactly when
    simple-git binds and the check answers true; any other outcome is
    an envelope with [success = false] and no data. It invokes the
    check at most once and nothing else. *)
Theorem verifyGitRepo_verdict repoPath (w : World S) :
  exists verdict w',
    Legacy.verifyGitRepo cwd simpleGit repoPath w = (Ok verdict, w')
    /\ (verdict = None <->
        exists git,
          simpleGit (default cwd (given repoPath)) (pstate w) = Ok git
          /\ (prim_checkIsRepo git (pstate w)).1 = Ok true)
    /\ (forall env, verdict = Some env -> success env = false /\ data env = None)
    /\ (logged_during w w' = []
        \/ exists f, logged_during w w' = [(C_checkIsRepo, f)]).
Proof.
  unfold Legacy.verifyGitRepo, Legacy.getGit, SimpleGit.bind_simpleGit.
  unfold_methods. rewrite !or_else_given. unfold logged_during.
  destruct (simpleGit _ (pstate w)) as [git|m] eqn:Hb.
  - destruct (prim_checkIsRepo git (pstate w)) as [[[|]|e] s1] eqn:Hc;
      cbn [negb calls pstate]; eexists _, _; (split; [reflexivity|]);
      cbn [calls]; rewrite drop_app_length;
      (split; [|split; [|right; eexists; reflexivity]]).
    + split; [intros _; exists git; split; [reflexivity|now rewrite Hc]|reflexivity].
    + intros env [=].
    + split; [discriminate|]. intros (g & [= <-] & Hg). rewrite Hc in Hg. discriminate Hg.
    + intros env [= <-]. split; reflexivity.
    + split; [discriminate|]. intros (g & [= <-] & Hg). rewrite Hc in Hg. discriminate Hg.
    + intros env [= <-]. split; reflexivity.
  - eexists _, _. split; [reflexivity|]. rewrite drop_all.
    split; [|split; [|left; reflexivity]].
    + split; [discriminate|]. intros (g & Hg & _). discriminate Hg.
    + intros env [= <-]. split; reflexivity.
Qed.

(** X24: on a repository, the module-level operations and the
    operations of the groups over the simple-git factory are the same:
    whenever the check answers true and simple-git binds the same
    provider again after it, every operation but [gitDiff] returns the
    same envelope, leaves the same state and logs the same calls in
    both forms; [gitInit] and [gitClone] agree in every world. *)
Theorem module_level_agrees_on_repositories (op : Operation) (w : World S) :
  is_diff op = false ->
  (requires_repository op = true ->
   exists git,
     simpleGit (default cwd (given (repoPath_of op))) (pstate w) = Ok git
     /\ (prim_checkIsRepo git (pstate w)).1 = Ok true
     /\ simpleGit (default cwd (given (repoPath_of op)))
          (prim_checkIsRepo git (pstate w)).2 = Ok git) ->
  Legacy.run cwd simpleGit path_basename op w =
  GitTools.run (SimpleGit.getGit cwd simpleGit) cwd path_basename op w.
Proof.
  intros Hdiff Hrepo.
  destruct op; try discriminate Hdiff; cbn [requires_repository repoPath_of] in Hrepo;
    try (destruct (Hrepo eq_refl) as (git & Hb & Hc & Hb'); clear Hrepo;
         destruct (prim_checkIsRepo git (pstate w)) as [r s1] eqn:Hp;
         cbn [fst snd] in Hc, Hb'; subst r);
    unfold_legacy; unfold_operations;
    unfold SimpleGit.getGit, SimpleGit.bind_simpleGit, GitTools.repo,
      GitTools.repo_not_required; cbn [fa_repoPath fa_required default from_option id];
    unfold_methods; rewrite ?or_else_given;
    try (rewrite Hb, Hp; cbn [negb pstate calls]; rewrite Hb');
    first [ reflexivity | repeat next_case; reflexivity ].
Qed.

(** X25: the module-level [gitDiff] restricts the diff to the given
    files but never the summary: the diffSummary primitive receives
    ["--cached"] or nothing, whatever files were named, and no "--"
    separates the files. *)
Theorem module_level_gitDiff_summary files cached repoPath (w : World S)
    (git : GitProvider S) (s1 s2 s3 : S) (d : string) (rs : Result GitDiffSummary) :
  simpleGit (default cwd (given repoPath)) (pstate w) = Ok git ->
  prim_checkIsRepo git (pstate w) = (Ok true, s1) ->
  simpleGit (default cwd (given repoPath)) s1 = Ok git ->
  prim_diff git
    (match cached with Some true => ["--cached"] | _ => [] end ++ default [] files) s1
    = (Ok d, s2) ->
  prim_diffSummary git match cached with Some true => ["--cached"] | _ => [] end s2
    = (rs, s3) ->
  exists env,
    Legacy.gitDiff cwd simpleGit files cached repoPath w =
      (Ok env,
       {| pstate := s3;
          calls := calls w ++
            [(C_checkIsRepo, None);
             (C_diff (match cached with Some true => ["--cached"] | _ => [] end
                        ++ default [] files), None);
             (C_diffSummary match cached with Some true => ["--cached"] | _ => [] end,
              fault_of rs)] |})
    /\ (forall ds, rs = Ok ds ->
        message env =
          "Diff for " +:+ match files with
                          | Some (f :: fs) => pretty (length (f :: fs))
                          | _ => "all"
                          end +:+ " file(s)").
Proof.
  intros Hb Hc Hb' Hd Hs. unfold_legacy. unfold_methods. rewrite !or_else_given.
  rewrite Hb, Hc. cbn [negb pstate calls]. rewrite Hb'.
  destruct cached as [[|]|]; cbn [truthy_bool app] in *;
    change (file_list files) with (default [] files); cbn [pstate calls fault_of];
    rewrite Hd; cbn [pstate calls]; rewrite Hs;
    destruct rs as [ds|e]; eexists; (split; [rewrite <- !app_assoc; reflexivity|]);
    try (intros ds' [=]);
    intros; unfold Legacy.file_count; destruct files as [[|f fs]|]; reflexivity.
Qed.

(** X26: the dispatcher relays. For a name of the handler table it
    answers with the envelope of the module-level operation, unchanged,
    printed with an indent of two, and its own [catch] does not fire;
    for a name that is no property of the table it answers "Unknown
    tool: <name>" without touching the provider. *)
Theorem dispatcher_relays (name : string) (arguments : option JSON) (w : World S) :
  match Server.lookup_handler name with
  | Server.Own handler =>
      forall op, handler (default (JObj []) arguments) = Some op ->
      exists m env w',
        Server.answer cwd simpleGit path_basename name arguments = Some m
        /\ Legacy.run cwd simpleGit path_basename op w = (Ok env, w')
        /\ m w = (Ok (env, Some 2), w')
  | Server.Undefined =>
      exists m,
        Server.answer cwd simpleGit path_basename name arguments = Some m
        /\ m w = (Ok (failure ("Unknown tool: " +:+ name), None), w)
  | Server.Inherited => True
  end.
Proof.
  unfold Server.answer. destruct (Server.lookup_handler name) as [h| |]; [|exact I|].
  - intros op Hop. rewrite Hop. cbn [mbind option_bind].
    destruct (legacy_run_envelope cwd simpleGit path_basename op w)
      as (env & w' & Hrun & _).
    eexists _, env, w'. split; [reflexivity|]. split; [exact Hrun|].
    unfold try_catch, bind. rewrite Hrun. reflexivity.
  - eexists. split; reflexivity.
Qed.

End FurtherModuleLevel.

(** ** The mock of the test suite *)

Lemma getCalls_recordCall (n m : string) (c : Call) (s : Mock.MockState) :
  Mock.getCalls m (Mock.recordCall n c s) =
  if decide (n = m) then Mock.getCalls n s ++ [c] else Mock.getCalls m s.
Proof.
  unfold Mock.getCalls, Mock.recordCall, Mock.with_calls. cbn [Mock.mock_calls].
  destruct (decide (n = m)) as [<-|Hne].
  - now rewrite lookup_insert_eq.
  - now rewrite lookup_insert_ne.
Qed.

Lemma shouldThrow_recordCall (n : string) (c : Call) (s : Mock.MockState) :
  Mock.shouldThrow (Mock.recordCall n c s) = Mock.shouldThrow s.
Proof. reflexivity. Qed.

(** X27: every method of the mock records its call before it decides
    to throw: after a call of method [n], [getCalls(n)] has grown by
    exactly that call, the record of every other method is as before,
    and the method has thrown "Mock error for <n>" exactly when
    [shouldThrow] holds true for [n]. The names are keys that an
    object literal does not inherit, as the names of the mock's methods
    are. *)
Theorem mock_records_every_call {A} (n : string) (c : Call)
    (value : Mock.MockState -> A) (s : Mock.MockState) :
  plain_key n = true ->
  Mock.getCalls n (Mock.method n c value s).2 = Mock.getCalls n s ++ [c]
  /\ (forall m, plain_key m = true -> m <> n ->
      Mock.getCalls m (Mock.method n c value s).2 = Mock.getCalls m s)
  /\ fault_of (Mock.method n c value s).1 =
       if default false (Mock.shouldThrow s !! n)
       then Some ("Mock error for " +:+ n) else None.
Proof.
  intros _.
  unfold Mock.method, Mock.checkThrow. rewrite shouldThrow_recordCall.
  destruct (default false (Mock.shouldThrow s !! n)); cbn [fst snd fault_of];
    (split; [|split; [|reflexivity]]).
  - rewrite getCalls_recordCall. now rewrite decide_True.
  - intros m _ Hm. rewrite getCalls_recordCall. now rewrite decide_False.
  - rewrite getCalls_recordCall. now rewrite decide_True.
  - intros m _ Hm. rewrite getCalls_recordCall. now rewrite decide_False.
Qed.

(** X28: [setError(n)] makes method [n], and no other method, throw
    "Mock error for <n>"; [resetMock] takes every such setting back and
    forgets all recorded calls. Both names are keys that an object
    literal does not inherit. *)
Theorem mock_setError_and_reset {A} (n m : string) (c : Call)
    (value : Mock.MockState -> A) (s : Mock.MockState) :
  plain_key n = true -> plain_key m = true ->
  fault_of (Mock.method n c value (Mock.setError n s)).1 = Some ("Mock error for " +:+ n)
  /\ (m <> n ->
      fault_of (Mock.method m c value (Mock.setError n s)).1 =
      fault_of (Mock.method m c value s).1)
  /\ fault_of (Mock.method m c value (Mock.resetMock (Mock.setError n s))).1 = None
  /\ Mock.getCalls m (Mock.resetMock s) = [].
Proof.
  intros _ _.
  unfold Mock.method, Mock.checkThrow. rewrite !shouldThrow_recordCall.
  unfold Mock.setError, Mock.resetMock, Mock.with_shouldThrow, Mock.with_calls,
    Mock.getCalls. cbn [Mock.shouldThrow Mock.mock_calls].
  rewrite lookup_insert_eq, !lookup_empty. cbn [default from_option id fst fault_of].
  split; [reflexivity|]. split; [|split; reflexivity].
  intros Hne. rewrite lookup_insert_ne by congruence.
  destruct (default false (Mock.shouldThrow s !! m)); reflexivity.
Qed.

Lemma recorded_app (m : string) (log : list Event) (c : Call) (f : option string) :
  recorded m (log ++ [(c, f)]) =
  recorded m log ++ (if decide (method_name c = m) then [c] else []).
Proof.
  unfold recorded. rewrite List.filter_app, map_app. f_equal. cbn [List.filter fst].
  destruct (String.eqb_spec (method_name c) m) as [E|E].
  - now rewrite decide_True.
  - now rewrite decide_False.
Qed.

Lemma preserves_ret {A} (a : A) : preserves (ret a).
Proof. intros w Hw. exact Hw. Qed.

Lemma preserves_throw {A} (e : string) : preserves (@throw Mock.MockState A e).
Proof. intros w Hw. exact Hw. Qed.

Lemma preserves_bind {A B} (m : M Mock.MockState A) (k : A -> M Mock.MockState B) :
  preserves m -> (forall a, preserves (k a)) -> preserves (bind m k).
Proof.
  intros Hm Hk w Hw. unfold bind. specialize (Hm w Hw).
  destruct (m w) as [[a|e] w']; cbn [snd] in *; [apply Hk|]; exact Hm.
Qed.

Lemma preserves_try_catch {A} (m : M Mock.MockState A) (h : string -> M Mock.MockState A) :
  preserves m -> (forall e, preserves (h e)) -> preserves (try_catch m h).
Proof.
  intros Hm Hh w Hw. unfold try_catch. specialize (Hm w Hw).
  destruct (m w) as [[a|e] w']; cbn [snd] in *; [|apply Hh]; exact Hm.
Qed.

Lemma preserves_method {A} (n : string) (c : Call) (value : Mock.MockState -> A) :
  method_name c = n -> preserves (invoke c (Mock.method n c value)).
Proof.
  intros Hn w Hw m. unfold invoke.
  destruct (Mock.method n c value (pstate w)) as [r s'] eqn:E. cbn [snd pstate calls].
  assert (Hs : s' = Mock.recordCall n c (pstate w)).
  { unfold Mock.method in E. destruct (Mock.checkThrow _ _); now injection E as _ <-. }
  unfold consistent in Hw.
  rewrite Hs, getCalls_recordCall, recorded_app, Hn.
  destruct (decide (n = m)) as [<-|]; rewrite Hw; [reflexivity|now rewrite app_nil_r].
Qed.

Ltac preserve :=
  repeat first
    [ apply preserves_ret
    | apply preserves_throw
    | apply preserves_method; reflexivity
    | apply preserves_try_catch
    | apply preserves_bind
    | match goal with
      | |- preserves (if ?b then _ else _) => destruct b
      | |- preserves (match ?x with _ => _ end) => destruct x
      | |- forall _, _ => intro
      end ].

Lemma preserves_factory (cwd : string) (args : FactoryArgs) :
  preserves (Mock.createMockGitProviderFactory cwd Mock.MockGitProvider args).
Proof.
  unfold Mock.createMockGitProviderFactory.
  destruct (default true (fa_required args)); [|apply preserves_ret].
  apply preserves_bind; [apply preserves_method; reflexivity|].
  intros isRepo. destruct (negb isRepo); [apply preserves_throw|apply preserves_ret].
Qed.

Lemma preserves_after_factory {B} (cwd : string) (args : FactoryArgs)
    (k : GitProvider Mock.MockState -> M Mock.MockState B) :
  preserves (k Mock.MockGitProvider) ->
  preserves (bind (Mock.createMockGitProviderFactory cwd Mock.MockGitProvider args) k).
Proof.
  intros Hk w Hw. unfold bind.
  pose proof (preserves_factory cwd args w Hw) as Hf.
  destruct (Mock.createMockGitProviderFactory cwd Mock.MockGitProvider args w)
    as [[git|e] w'] eqn:E; cbn [snd] in *; [|exact Hf].
  assert (git = Mock.MockGitProvider) as ->; [|now apply Hk].
  revert E. unfold Mock.createMockGitProviderFactory, Git.checkIsRepo, invoke, bind, ret,
    throw.
  destruct (default true (fa_required args)); [|now intros [= <- _]].
  destruct (prim_checkIsRepo _ _) as [[[|]|] ?]; cbn [negb]; now intros [= <- _].
Qed.

Lemma preserves_operation (cwd : string) (path_basename : string -> string -> string)
    (op : Operation) :
  preserves (GitTools.run (Mock.createMockGitProviderFactory cwd Mock.MockGitProvider)
               cwd path_basename op).
Proof.
  destruct op; unfold_operations;
    (apply preserves_try_catch; [|intro; apply preserves_ret]);
    apply preserves_after_factory; cbv zeta; preserve.
Qed.

(** X29: what a test reads with [getCalls] is what the operation did.
    Starting from a mock without recorded calls, whatever its data and
    its error settings, after any operation configured with the mock
    factory the calls the mock holds for a method are exactly the calls
    of that method the operation made, in order. The method name is a
    key that an object literal does not inherit. *)
Theorem mock_record_matches_the_log (cwd : string)
    (path_basename : string -> string -> string) (op : Operation)
    (s : Mock.MockState) (method : string) :
  plain_key method = true ->
  Mock.getCalls method
    (pstate (GitTools.run (Mock.createMockGitProviderFactory cwd Mock.MockGitProvider)
               cwd path_basename op
               {| pstate := Mock.with_calls s ∅; calls := [] |}).2) =
  recorded method
    (calls (GitTools.run (Mock.createMockGitProviderFactory cwd Mock.MockGitProvider)
              cwd path_basename op
              {| pstate := Mock.with_calls s ∅; calls := [] |}).2).
Proof.
  intros _. apply preserves_operation. intros m.
  unfold Mock.getCalls, Mock.with_calls. cbn [pstate calls Mock.mock_calls].
  now rewrite lookup_empty.
Qed.

(** X30: the mock factory cannot report a directory that is no
    repository: it hands out the provider it was given, for any path,
    unless a repository is required and [checkIsRepo] is set to throw,
    and then the fault is "Mock error for checkIsRepo". *)
Theorem mock_factory_always_finds_a_repository (cwd : string) (args : FactoryArgs)
    (w : World Mock.MockState) :
  (Mock.createMockGitProviderFactory cwd Mock.MockGitProvider args w).1 =
  if default true (fa_required args)
     && default false (Mock.shouldThrow (pstate w) !! "checkIsRepo")
  then Throw "Mock error for checkIsRepo"
  else Ok Mock.MockGitProvider.
Proof.
  unfold Mock.createMockGitProviderFactory.
  destruct (default true (fa_required args)); [|reflexivity].
  unfold Git.checkIsRepo, invoke, bind. cbn [prim_checkIsRepo Mock.MockGitProvider].
  unfold Mock.method, Mock.checkThrow. rewrite shouldThrow_recordCall.
  destruct (default false (Mock.shouldThrow (pstate w) !! "checkIsRepo")); reflexivity.
Qed.

Lemma gitStatus_reports_witness :
  exists d,
    GitTools.gitStatus Examples.mockFactory None Examples.fresh =
      (Ok {| success := true; message := "Working tree clean"; data := Some d |},
       {| pstate := Mocked.after (prim_status Mock.MockGitProvider) Mocked.checked;
          calls := [(C_checkIsRepo, None); (C_status, None)] |})
    /\ get "isClean" d = Some (JBool true).
Proof.
  destruct (gitStatus_reports Examples.mockFactory None Examples.fresh Examples.checked
              Mock.MockGitProvider (Mock.mockStatus Mock.initial)
              (Mocked.after (prim_status Mock.MockGitProvider) Mocked.checked))
    as (d & Hrun & Hclean & _); [reflexivity | vm_compute; reflexivity |].
  exists d. split; [exact Hrun | exact Hclean].
Defined.

Lemma gitBranchList_records_witness :
  exists records,
    (GitTools.gitBranchList Examples.mockFactory None Examples.fresh).1 =
      Ok {| success := true; message := "Found 1 branches"; data := Some (JArr records) |}
    /\ records !! 0 =
         Some (JObj [("name", JStr "main"); ("current", JBool true);
                     ("commit", JStr "abc123")]).
Proof.
  destruct (gitBranchList_records Examples.mockFactory None Examples.fresh Examples.checked
              Mock.MockGitProvider (Mock.mockBranches Mock.initial)
              (Mocked.after (prim_branch Mock.MockGitProvider) Mocked.checked))
    as (records & Hrun & _ & Hrec); [reflexivity | vm_compute; reflexivity |].
  exists records. split; [exact Hrun|]. exact (Hrec 0 "main" eq_refl).
Defined.

Lemma gitBranchDelete_flag_witness :
  GitTools.gitBranchDelete Examples.mockFactory "unmerged-feature" (Some true) None
    Examples.fresh =
    (Ok (ok_msg "Deleted branch 'unmerged-feature'"),
     {| pstate :=
          Mocked.after (prim_branch_args Mock.MockGitProvider ["-D"; "unmerged-feature"])
            Mocked.checked;
        calls := [(C_checkIsRepo, None);
                  (C_branch (Some ["-D"; "unmerged-feature"]), None)] |}).
Proof.
  apply (gitBranchDelete_flag Examples.mockFactory "unmerged-feature" (Some true) None
           Examples.fresh Examples.checked Mock.MockGitProvider (Ok ()));
    [reflexivity | vm_compute; reflexivity].
Defined.

Lemma gitCheckout_primitive_witness :
  GitTools.gitCheckout Examples.mockFactory "new-feature" (Some true) None Examples.fresh =
    (Ok (ok_msg "Created and switched to branch 'new-feature'"),
     {| pstate :=
          Mocked.after (prim_checkoutBranch Mock.MockGitProvider "new-feature" "HEAD")
            Mocked.checked;
        calls := [(C_checkIsRepo, None); (C_checkoutBranch "new-feature" "HEAD", None)] |}).
Proof.
  apply (gitCheckout_primitive Examples.mockFactory "new-feature" (Some true) None
           Examples.fresh Examples.checked Mock.MockGitProvider (Ok ()));
    [reflexivity | vm_compute; reflexivity].
Defined.

Lemma gitMerge_arguments_witness :
  exists d,
    GitTools.gitMerge Examples.mockFactory "feature-branch" (Some true) None Examples.fresh =
      (Ok {| success := true; message := "Merged branch 'feature-branch'"; data := Some d |},
       {| pstate :=
            Mocked.after (prim_merge Mock.MockGitProvider ["--no-ff"; "feature-branch"])
              Mocked.checked;
          calls := [(C_checkIsRepo, None); (C_merge ["--no-ff"; "feature-branch"], None)] |})
    /\ get "conflicts" d = Some (JStrs []).
Proof.
  destruct (gitMerge_arguments Examples.mockFactory "feature-branch" (Some true) None
              Examples.fresh Examples.checked Mock.MockGitProvider
              (Mock.mockMergeResult Mock.initial)
              (Mocked.after (prim_merge Mock.MockGitProvider ["--no-ff"; "feature-branch"])
                 Mocked.checked))
    as (d & Hrun & Hc & _); [reflexivity | vm_compute; reflexivity |].
  exists d. split; [exact Hrun | exact Hc].
Defined.

(** ** The further properties on the mock of the test suite *)

Lemma gitDiff_single_ref_witness :
  exists env w',
    GitTools.gitDiff Examples.mockFactory None None (Some "abc123") None None None
      Examples.fresh = (Ok env, w')
    /\ message env = "Diff from abc123 to working tree"
    /\ calls w' = [(C_checkIsRepo, None); (C_diff ["abc123"], None);
                   (C_diffSummary ["abc123"], None)].
Proof.
  eexists _, _. split.
  - apply (gitDiff_single_ref Examples.mockFactory None None (Some "abc123") None None None
             "abc123" Examples.fresh Examples.checked Mock.MockGitProvider
             (Mock.mockDiffOutput Mock.initial)
             (Mocked.after (prim_diff Mock.MockGitProvider ["abc123"]) Mocked.checked)
             (Mocked.after (prim_diffSummary Mock.MockGitProvider ["abc123"])
                (Mocked.after (prim_diff Mock.MockGitProvider ["abc123"]) Mocked.checked))
             (Mock.mockDiffSummary Mock.initial));
      [left; split; reflexivity | reflexivity | vm_compute; reflexivity
      | vm_compute; reflexivity].
  - split; reflexivity.
Defined.

Lemma gitDiff_working_tree_witness :
  exists env w',
    GitTools.gitDiff Examples.mockFactory (Some ["file1.ts"; "file2.ts"]) None None None
      None None Examples.fresh = (Ok env, w')
    /\ message env = "Diff for 2 file(s)"
    /\ calls w' = [(C_checkIsRepo, None); (C_diff ["--"; "file1.ts"; "file2.ts"], None);
                   (C_diffSummary ["file1.ts"; "file2.ts"], None)].
Proof.
  eexists _, _. split.
  - apply (gitDiff_working_tree Examples.mockFactory (Some ["file1.ts"; "file2.ts"]) None
             None None None None Examples.fresh Examples.checked Mock.MockGitProvider
             (Mock.mockDiffOutput Mock.initial)
             (Mocked.after (prim_diff Mock.MockGitProvider ["--"; "file1.ts"; "file2.ts"])
                Mocked.checked)
             (Mocked.after (prim_diffSummary Mock.MockGitProvider ["file1.ts"; "file2.ts"])
                (Mocked.after
                   (prim_diff Mock.MockGitProvider ["--"; "file1.ts"; "file2.ts"])
                   Mocked.checked))
             (Mock.mockDiffSummary Mock.initial));
      [reflexivity | reflexivity | reflexivity | vm_compute; reflexivity
      | vm_compute; reflexivity].
  - split; reflexivity.
Defined.

Lemma gitDiff_faults_witness :
  GitTools.gitDiff Examples.mockFactory None None None None None None
    (Examples.failing "diff") =
    (Ok (failure "Failed to get diff: Mock error for diff"),
     {| pstate :=
          Mocked.after (prim_diff Mock.MockGitProvider [])
            (Mocked.after (prim_checkIsRepo Mock.MockGitProvider)
               (pstate (Examples.failing "diff")));
        calls := [(C_checkIsRepo, None); (C_diff [], Some "Mock error for diff")] |}).
Proof.
  destruct (gitDiff_faults Examples.mockFactory None None None None None None
              (Examples.failing "diff")
              (Examples.mockFactory (GitTools.repo None) (Examples.failing "diff")).2
              Mock.MockGitProvider (Throw "Mock error for diff")
              (Mocked.after (prim_diff Mock.MockGitProvider [])
                 (Mocked.after (prim_checkIsRepo Mock.MockGitProvider)
                    (pstate (Examples.failing "diff"))))
              (pstate (Examples.failing "diff")) "Mock error for diff")
    as [H _]; [reflexivity | vm_compute; reflexivity |].
  exact (H eq_refl).
Defined.

Lemma gitReset_unstages_witness :
  exists w',
    GitTools.gitReset Examples.mockFactory (Some ["file1.ts"; "file2.ts"]) (Some hard)
      None None Examples.fresh =
      (Ok (ok_msg "Unstaged 2 file(s): file1.ts, file2.ts"), w')
    /\ calls w' = [(C_checkIsRepo, None); (C_reset ["HEAD"; "file1.ts"; "file2.ts"], None)].
Proof.
  eexists. split.
  - apply (gitReset_unstages Examples.mockFactory "file1.ts" ["file2.ts"] (Some hard) None
             None Examples.fresh Examples.checked Mock.MockGitProvider (Ok ())
             (Mocked.after (prim_reset Mock.MockGitProvider ["HEAD"; "file1.ts"; "file2.ts"])
                Mocked.checked));
      [reflexivity | vm_compute; reflexivity].
  - reflexivity.
Defined.

Lemma gitReset_resets_witness :
  exists w',
    GitTools.gitReset Examples.mockFactory (Some []) (Some hard) None None Examples.fresh =
      (Ok (ok_msg "Reset to HEAD (hard mode)"), w')
    /\ calls w' = [(C_checkIsRepo, None); (C_reset ["--hard"; "HEAD"], None)].
Proof.
  eexists. split.
  - apply (gitReset_resets Examples.mockFactory (Some []) (Some hard) None None
             Examples.fresh Examples.checked Mock.MockGitProvider (Ok ())
             (Mocked.after (prim_reset Mock.MockGitProvider ["--hard"; "HEAD"])
                Mocked.checked));
      [right; reflexivity | reflexivity | vm_compute; reflexivity].
  - reflexivity.
Defined.

Lemma gitCommit_without_files_witness :
  exists env,
    GitTools.gitCommit Examples.mockFactory "Amended commit" None (Some true) None
      Examples.fresh =
      (Ok env,
       {| pstate :=
            Mocked.after
              (prim_commit Mock.MockGitProvider "Amended commit" None [("--amend", JNull)])
              Mocked.checked;
          calls := [(C_checkIsRepo, None);
                    (C_commit "Amended commit" None [("--amend", JNull)], None)] |})
    /\ message env = "Committed changes: def456".
Proof.
  destruct (gitCommit_without_files Examples.mockFactory "Amended commit" None (Some true)
              None Examples.fresh Examples.checked Mock.MockGitProvider
              (Ok (Mock.mockCommitResult Mock.initial))
              (Mocked.after
                 (prim_commit Mock.MockGitProvider "Amended commit" None
                    [("--amend", JNull)])
                 Mocked.checked))
    as (env & Hrun & _ & Hm); [left; reflexivity | reflexivity | vm_compute; reflexivity |].
  exists env. split; [exact Hrun | exact Hm].
Defined.

Lemma gitShow_default_ref_witness :
  exists env w',
    GitTools.gitShow Examples.mockFactory (Some "") None Examples.fresh = (Ok env, w')
    /\ message env = "Details for HEAD"
    /\ calls w' = [(C_checkIsRepo, None); (C_show ["HEAD"], None)].
Proof.
  eexists _, _. split.
  - apply (gitShow_default_ref Examples.mockFactory (Some "") None Examples.fresh
             Examples.checked Mock.MockGitProvider
             (prim_show Mock.MockGitProvider ["HEAD"] Mocked.checked).1
             (Mocked.after (prim_show Mock.MockGitProvider ["HEAD"]) Mocked.checked));
      [reflexivity | apply surjective_pairing].
  - split; vm_compute; reflexivity.
Defined.

Lemma gitStash_arguments_witness :
  exists w',
    GitTools.gitStash Examples.mockFactory (Some "Saving work") (Some true) None
      Examples.fresh = (Ok (ok_msg "Stashed changes: Saving work"), w')
    /\ calls w' = [(C_checkIsRepo, None);
                   (C_stash ["push"; "-u"; "-m"; "Saving work"], None)].
Proof.
  eexists. split.
  - apply (gitStash_arguments Examples.mockFactory (Some "Saving work") (Some true) None
             Examples.fresh Examples.checked Mock.MockGitProvider (Ok ())
             (Mocked.after
                (prim_stash Mock.MockGitProvider ["push"; "-u"; "-m"; "Saving work"])
                Mocked.checked));
      [reflexivity | vm_compute; reflexivity].
  - reflexivity.
Defined.

Lemma gitFetch_shapes_witness :
  exists w',
    GitTools.gitFetch Examples.mockFactory None (Some "main") None Examples.fresh =
      (Ok (ok_msg "Fetched from all remotes"), w')
    /\ calls w' = [(C_checkIsRepo, None); (C_fetch None None, None)].
Proof.
  eexists. split.
  - apply (gitFetch_shapes Examples.mockFactory None (Some "main") None
             Examples.fresh Examples.checked Mock.MockGitProvider (Ok ())
             (Mocked.after (prim_fetch Mock.MockGitProvider None None) Mocked.checked));
      [reflexivity | vm_compute; reflexivity].
  - reflexivity.
Defined.

Lemma gitPull_arguments_witness :
  exists w',
    GitTools.gitPull Examples.mockFactory None (Some "main") (Some true) None
      Examples.fresh = (Ok (ok_msg "Pulled from origin/main"), w')
    /\ calls w' = [(C_checkIsRepo, None);
                   (C_pull None (Some "main") [("--rebase", JNull)], None)].
Proof.
  eexists. split.
  - apply (gitPull_arguments Examples.mockFactory None (Some "main") (Some true) None
             Examples.fresh Examples.checked Mock.MockGitProvider (Ok ())
             (Mocked.after
                (prim_pull Mock.MockGitProvider None (Some "main") [("--rebase", JNull)])
                Mocked.checked));
      [reflexivity | vm_compute; reflexivity].
  - reflexivity.
Defined.

Lemma gitPush_arguments_witness :
  exists w',
    GitTools.gitPush Examples.mockFactory None None (Some true) (Some true) None
      Examples.fresh = (Ok (ok_msg "Pushed to origin"), w')
    /\ calls w' = [(C_checkIsRepo, None);
                   (C_push None None ["--force"; "--set-upstream"], None)].
Proof.
  eexists. split.
  - apply (gitPush_arguments Examples.mockFactory None None (Some true) (Some true) None
             Examples.fresh Examples.checked Mock.MockGitProvider (Ok ())
             (Mocked.after
                (prim_push Mock.MockGitProvider None None ["--force"; "--set-upstream"])
                Mocked.checked));
      [reflexivity | vm_compute; reflexivity].
  - reflexivity.
Defined.

Lemma gitRemoteList_records_witness :
  exists records w',
    GitTools.gitRemoteList Examples.mockFactory None Examples.fresh =
      (Ok {| success := true; message := "Found 1 remote(s)";
             data := Some (JArr records) |}, w')
    /\ records !! 0 =
         Some (JObj [("name", JStr "origin");
                     ("refs", JObj [("fetch", JStr "https://github.com/user/repo.git");
                                    ("push", JStr "https://github.com/user/repo.git")])]).
Proof.
  destruct (gitRemoteList_records Examples.mockFactory None Examples.fresh Examples.checked
              Mock.MockGitProvider (Mock.mockRemotes Mock.initial)
              (Mocked.after (prim_getRemotes Mock.MockGitProvider true) Mocked.checked))
    as (records & Hrun & _ & Hrec); [reflexivity | vm_compute; reflexivity |].
  exists records. eexists. split; [exact Hrun|].
  exact (Hrec 0 _ eq_refl).
Defined.

Lemma gitClone_target_witness :
  exists w',
    GitTools.gitClone Examples.mockFactory Node.basename "https://github.com/user/repo.git"
      (Some "my-repo") None Examples.fresh =
      (Ok (ok_msg "Cloned repository from https://github.com/user/repo.git to my-repo"), w')
    /\ calls w' = [(C_clone "https://github.com/user/repo.git" "my-repo", None)].
Proof.
  eexists. split.
  - apply (gitClone_target Examples.mockFactory Node.basename
             "https://github.com/user/repo.git" (Some "my-repo") None
             Examples.fresh Examples.fresh Mock.MockGitProvider (Ok ())
             (Mocked.after
                (prim_clone Mock.MockGitProvider "https://github.com/user/repo.git" "my-repo")
                Mock.initial));
      [reflexivity | vm_compute; reflexivity].
  - reflexivity.
Defined.

Lemma gitInit_initialises_witness :
  exists w',
    Examples.production (Op_gitInit (Some "")) Examples.fresh =
      (Ok (ok_msg "Initialized empty Git repository in /work"), w')
    /\ calls w' = [(C_init, None)].
Proof.
  eexists. split.
  - apply (gitInit_initialises "/work" Examples.mocked Node.basename (Some "")
             Examples.fresh Mock.MockGitProvider (Ok ())
             (Mocked.after (prim_init Mock.MockGitProvider) Mock.initial));
      [reflexivity | vm_compute; reflexivity].
  - reflexivity.
Defined.


Lemma module_level_agrees_on_repositories_witness :
  Examples.module_level (Op_gitStatus None) Examples.fresh =
  Examples.production (Op_gitStatus None) Examples.fresh.
Proof.
  apply (module_level_agrees_on_repositories "/work" Examples.mocked Node.basename
           (Op_gitStatus None) Examples.fresh); [reflexivity|].
  intros _. exists Mock.MockGitProvider.
  split; [reflexivity|]. split; [vm_compute; reflexivity | reflexivity].
Defined.

Lemma module_level_gitDiff_summary_witness :
  exists env w',
    Legacy.gitDiff "/work" Examples.mocked (Some ["file1.ts"]) None None Examples.fresh =
      (Ok env, w')
    /\ calls w' = [(C_checkIsRepo, None); (C_diff ["file1.ts"], None);
                   (C_diffSummary [], None)]
    /\ message env = "Diff for 1 file(s)".
Proof.
  destruct (module_level_gitDiff_summary "/work" Examples.mocked (Some ["file1.ts"]) None
              None Examples.fresh Mock.MockGitProvider
              Mocked.checked
              (Mocked.after (prim_diff Mock.MockGitProvider ["file1.ts"]) Mocked.checked)
              (Mocked.after (prim_diffSummary Mock.MockGitProvider [])
                 (Mocked.after (prim_diff Mock.MockGitProvider ["file1.ts"]) Mocked.checked))
              (Mock.mockDiffOutput Mock.initial)
              (Ok (Mock.mockDiffSummary Mock.initial)))
    as (env & Hrun & Hm);
    [reflexivity | vm_compute; reflexivity | reflexivity | vm_compute; reflexivity
    | vm_compute; reflexivity |].
  exists env. eexists. split; [exact Hrun|]. split; [reflexivity|].
  exact (Hm _ eq_refl).
Defined.

Lemma mock_records_every_call_witness :
  Mock.getCalls "status" (Mock.method "status" C_status Mock.mockStatus Mock.initial).2 =
    [C_status]
  /\ Mock.getCalls "diff" (Mock.method "status" C_status Mock.mockStatus Mock.initial).2 = [].
Proof.
  destruct (mock_records_every_call "status" C_status Mock.mockStatus Mock.initial eq_refl)
    as (Hn & Hm & _).
  split; [exact Hn | exact (Hm "diff" eq_refl ltac:(discriminate))].
Defined.

Lemma mock_setError_and_reset_witness :
  fault_of (Mock.method "diff" (C_diff []) Mock.mockDiffOutput
              (Mock.setError "diff" Mock.initial)).1 = Some "Mock error for diff"
  /\ fault_of (Mock.method "status" C_status Mock.mockStatus
                 (Mock.setError "diff" Mock.initial)).1 = None.
Proof.
  split.
  - exact (proj1 (mock_setError_and_reset "diff" "diff" (C_diff []) Mock.mockDiffOutput
                    Mock.initial eq_refl eq_refl)).
  - destruct (mock_setError_and_reset "diff" "status" C_status Mock.mockStatus
                Mock.initial eq_refl eq_refl) as (_ & Hm & _).
    rewrite (Hm ltac:(discriminate)). reflexivity.
Defined.

Lemma mock_record_matches_the_log_witness :
  Mock.getCalls "status"
    (pstate (GitTools.run (Mock.createMockGitProviderFactory "/work" Mock.MockGitProvider)
               "/work" Node.basename (Op_gitStatus None)
               {| pstate := Mock.with_calls Mock.initial ∅; calls := [] |}).2) =
  recorded "status"
    (calls (GitTools.run (Mock.createMockGitProviderFactory "/work" Mock.MockGitProvider)
              "/work" Node.basename (Op_gitStatus None)
              {| pstate := Mock.with_calls Mock.initial ∅; calls := [] |}).2).
Proof.
  apply (mock_record_matches_the_log "/work" Node.basename (Op_gitStatus None)
           Mock.initial "status").
  reflexivity.
Defined.
